(** * A shallow embedding of [verifier.py]

    [verifier.py] checks openelections result files (CSV) against the
    naming convention of the repository and against a small schema.  This
    development embeds the script, together with the parts of the Python
    standard library it calls ([str] methods, [os.path], [difflib]), and
    proves properties of the checks.

    Conventions of the embedding:
    - a Python [str] is a [string]: the bytes of its UTF-8 encoding.  An
      ASCII character is one byte, its own code, and the bytes of every
      other character are above 127.  The delimiters, tags and letters
      that the script looks for are ASCII, so the tests on them read the
      same on the bytes;
    - [str.title] and [int] depend on the Unicode character database, and
      [int] on the interpreter as well.  They are taken as given: they are
      the two operations of the class [PyLib], and what is proved of the
      script holds whatever they compute.  The instance [ascii_text]
      computes them for ASCII text; the sample files, whose text is ASCII,
      are run with it;
    - a [dict] is a [gmap], a [frozenset] is a [gset];
    - printing and exceptions are threaded through the monad [M]: a
      computation yields the lines it printed and either a value or the
      exception that ended it. *)

From Stdlib Require Import String Ascii ZArith List Lia.
From stdpp Require Import gmap strings list fin_maps sorting.

Local Open Scope string_scope.
Local Open Scope nat_scope.
Local Open Scope list_scope.
Local Open Scope stdpp_scope.

(** ** Python strings *)

Module PyStr.

Definition code (c : ascii) : nat := nat_of_ascii c.

Definition isupper (c : ascii) : bool := (65 <=? code c) && (code c <=? 90).
Definition islower (c : ascii) : bool := (97 <=? code c) && (code c <=? 122).

(** [[A-Za-z]], the class whose complement [charsRE] deletes. *)
Definition isalpha (c : ascii) : bool := isupper c || islower c.

Definition isdigit (c : ascii) : bool := (48 <=? code c) && (code c <=? 57).

(** The blanks that [int] strips from ASCII text: TAB, LF, VT, FF, CR
    and the blank. *)
Definition isspace (c : ascii) : bool :=
  ((9 <=? code c) && (code c <=? 13)) || (code c =? 32).

Definition tolower (c : ascii) : ascii :=
  if isupper c then ascii_of_nat (code c + 32) else c.

Definition toupper (c : ascii) : ascii :=
  if islower c then ascii_of_nat (code c - 32) else c.

Fixpoint smap (f : ascii -> ascii) (s : string) : string :=
  match s with
  | EmptyString => EmptyString
  | String c t => String (f c) (smap f t)
  end.

Fixpoint sfilter (p : ascii -> bool) (s : string) : string :=
  match s with
  | EmptyString => EmptyString
  | String c t => if p c then String c (sfilter p t) else sfilter p t
  end.

(** [s.lower()] on the ASCII letters of [s].  The script lowers a string
    either to compare it with the letter x, which only x and X become, or
    after it has deleted everything but ASCII letters. *)
Definition lower (s : string) : string := smap tolower s.

(** [s.title()] for ASCII [s]: a letter is upper-cased when the character
    before it is not a letter, and lower-cased otherwise. *)
Fixpoint title_from (previous_is_cased : bool) (s : string) : string :=
  match s with
  | EmptyString => EmptyString
  | String c t =>
      String (if previous_is_cased then tolower c else toupper c)
             (title_from (isalpha c) t)
  end.

Definition title (s : string) : string := title_from false s.

(** [s.replace(old, new)] for one-character [old] and [new]. *)
Definition replace (old new : ascii) (s : string) : string :=
  smap (fun c => if Ascii.eqb c old then new else c) s.

(** [sub in s] *)
Fixpoint contains (sub s : string) : bool :=
  String.prefix sub s ||
  match s with
  | EmptyString => false
  | String _ t => contains sub t
  end.

(** [s.split("__")]: the occurrences of the delimiter are taken from the
    left and do not overlap. *)
Fixpoint split__ (s : string) : list string :=
  match s with
  | EmptyString => [EmptyString]
  | String c t =>
      match t with
      | String d rest =>
          if Ascii.eqb c "_" && Ascii.eqb d "_" then EmptyString :: split__ rest
          else match split__ t with
               | h :: tl => String c h :: tl
               | [] => [String c EmptyString]
               end
      | EmptyString => [String c EmptyString]
      end
  end.

(** [s.rfind(c)], with -1 when [c] does not occur. *)
Fixpoint rfind_from (c : ascii) (s : string) (i last : Z) : Z :=
  match s with
  | EmptyString => last
  | String x t => rfind_from c t (i + 1)%Z (if Ascii.eqb x c then i else last)
  end.

Definition rfind (c : ascii) (s : string) : Z := rfind_from c s 0%Z (-1)%Z.

(** The slice [s[lo:hi]] for [0 <= lo]. *)
Definition slice (s : string) (lo hi : Z) : string :=
  String.substring (Z.to_nat lo) (Z.to_nat (hi - lo)) s.

Definition len (s : string) : Z := Z.of_nat (String.length s).

(** [os.path.basename(p)]: [p[p.rfind('/') + 1:]]. *)
Definition basename (p : string) : string :=
  slice p (rfind "/" p + 1)%Z (len p).

(** [os.path.splitext(p)]: the extension starts at the last dot of the
    last path component, unless that component has only dots before it. *)
Definition splitext (p : string) : string * string :=
  let sepIndex := rfind "/" p in
  let dotIndex := rfind "." p in
  if (sepIndex <? dotIndex)%Z then
    if String.eqb (sfilter (fun c => negb (Ascii.eqb c "."))
                           (slice p (sepIndex + 1)%Z dotIndex)) EmptyString
    then (p, EmptyString)
    else (slice p 0%Z dotIndex, slice p dotIndex (len p))
  else (p, EmptyString).

(** *** [int(s)] in base 10, for ASCII [s]

    Blanks are stripped at both ends, one sign may lead, and the digits
    may be grouped by single underscores.  [None] stands for the
    [ValueError] that [int] raises.  No bound is put on the number of
    digits. *)
Fixpoint lstrip (s : string) : string :=
  match s with
  | EmptyString => EmptyString
  | String c t => if isspace c then lstrip t else s
  end.

Definition rstrip (s : string) : string := String.rev (lstrip (String.rev s)).

Definition strip (s : string) : string := rstrip (lstrip s).

Definition digit_value (c : ascii) : Z := Z.of_nat (code c - 48).

(** [after_digit] tells whether the character before was a digit, so that
    an underscore is accepted only between two digits. *)
Fixpoint digits_value (s : string) (after_digit : bool) (acc : Z) : option Z :=
  match s with
  | EmptyString => if after_digit then Some acc else None
  | String c t =>
      if isdigit c then digits_value t true (10 * acc + digit_value c)%Z
      else if Ascii.eqb c "_" && after_digit then
        match t with
        | String d _ => if isdigit d then digits_value t false acc else None
        | EmptyString => None
        end
      else None
  end.

Definition int (s : string) : option Z :=
  match strip s with
  | String "+" t => digits_value t false 0%Z
  | String "-" t => Z.opp <$> digits_value t false 0%Z
  | t => digits_value t false 0%Z
  end.

End PyStr.

(** ** [difflib.SequenceMatcher]

    The script builds [SequenceMatcher(None, a, b)] and asks it for
    [find_longest_match(0, len(a), 0, len(b))].  With [isjunk = None] the
    junk set is empty: every [not isbjunk(...)] test holds and the two
    loops that extend a match over junk never run, so they are left out.
    [autojunk] keeps its default, [True]. *)

Module Difflib.

Record Match : Type := mkMatch { m_a : nat; m_b : nat; size : nat }.

Section SequenceMatcher.
Context {A : Type} `{Countable A}.

(** [__chain_b], first loop: [b2j.setdefault(elt, []).append(i)] for
    [i, elt] in [enumerate(b)]. *)
Fixpoint chain_from (i : nat) (b : list A) (b2j : gmap A (list nat))
  : gmap A (list nat) :=
  match b with
  | [] => b2j
  | elt :: t => chain_from (S i) t (<[elt := default [] (b2j !! elt) ++ [i]]> b2j)
  end.

(** [__chain_b], last part: when [b] has 200 elements or more, those
    occurring more than [n // 100 + 1] times are deleted from [b2j]. *)
Definition purge_popular (n : nat) (b2j : gmap A (list nat)) : gmap A (list nat) :=
  let ntest := n / 100 + 1 in
  filter (fun kv : A * list nat => length kv.2 ≤ ntest) b2j.

Definition chain_b (autojunk : bool) (b : list A) : gmap A (list nat) :=
  let b2j := chain_from 0 b ∅ in
  let n := length b in
  if autojunk && (200 <=? n) then purge_popular n b2j else b2j.

Record SequenceMatcher : Type :=
  mkSequenceMatcher { sm_a : list A; sm_b : list A; sm_b2j : gmap A (list nat) }.

Definition new (a b : list A) : SequenceMatcher :=
  {| sm_a := a; sm_b := b; sm_b2j := chain_b true b |}.

(** [j2len.get(j - 1, 0)]; for [j = 0] the key is -1, which is never in
    the dictionary. *)
Definition j2lenget (j2len : gmap nat nat) (j : nat) : nat :=
  match j with
  | 0 => 0
  | S j' => default 0 (j2len !! j')
  end.

(** The inner loop of [find_longest_match], over the positions [j] of
    [a[i]] in [b]; [i - k + 1] is written [S i - k] to stay in [nat]. *)
Fixpoint scan_row (blo bhi : nat) (j2len : gmap nat nat) (i : nat)
    (js : list nat) (newj2len : gmap nat nat) (best : Match)
  : gmap nat nat * Match :=
  match js with
  | [] => (newj2len, best)
  | j :: js' =>
      if j <? blo then scan_row blo bhi j2len i js' newj2len best
      else if bhi <=? j then (newj2len, best)
      else
        let k := j2lenget j2len j + 1 in
        scan_row blo bhi j2len i js' (<[j := k]> newj2len)
          (if size best <? k then mkMatch (S i - k) (S j - k) k else best)
  end.

(** The outer loop, [for i in range(alo, ahi)], run over the elements
    [a[alo:ahi]] with their index. *)
Fixpoint scan_rows (b2j : gmap A (list nat)) (blo bhi : nat) (i : nat)
    (arest : list A) (j2len : gmap nat nat) (best : Match) : Match :=
  match arest with
  | [] => best
  | x :: t =>
      let '(newj2len, best') :=
        scan_row blo bhi j2len i (default [] (b2j !! x)) ∅ best in
      scan_rows b2j blo bhi (S i) t newj2len best'
  end.

Definition same_at (a b : list A) (i j : nat) : bool :=
  match a !! i, b !! j with
  | Some x, Some y => bool_decide (x = y)
  | _, _ => false
  end.

(** [while besti > alo and bestj > blo and a[besti-1] == b[bestj-1]] *)
Fixpoint extend_left (a b : list A) (alo blo : nat) (besti bestj bestsize : nat)
  : Match :=
  match besti, bestj with
  | S i', S j' =>
      if (alo <? besti) && (blo <? bestj) && same_at a b i' j'
      then extend_left a b alo blo i' j' (S bestsize)
      else mkMatch besti bestj bestsize
  | _, _ => mkMatch besti bestj bestsize
  end.

(** [while besti+bestsize < ahi and bestj+bestsize < bhi and
    a[besti+bestsize] == b[bestj+bestsize]]; the loop runs at most
    [ahi - (besti + bestsize)] times, which is the [fuel] it is given. *)
Fixpoint extend_right (a b : list A) (ahi bhi : nat) (fuel : nat)
    (besti bestj bestsize : nat) : Match :=
  match fuel with
  | 0 => mkMatch besti bestj bestsize
  | S fuel' =>
      if (besti + bestsize <? ahi) && (bestj + bestsize <? bhi)
         && same_at a b (besti + bestsize) (bestj + bestsize)
      then extend_right a b ahi bhi fuel' besti bestj (S bestsize)
      else mkMatch besti bestj bestsize
  end.

Definition find_longest_match (s : SequenceMatcher) (alo ahi blo bhi : nat) : Match :=
  let a := sm_a s in
  let b := sm_b s in
  let best := scan_rows (sm_b2j s) blo bhi alo (take (ahi - alo) (drop alo a))
                ∅ (mkMatch alo blo 0) in
  let best := extend_left a b alo blo (m_a best) (m_b best) (size best) in
  extend_right a b ahi bhi (ahi - (m_a best + size best))
    (m_a best) (m_b best) (size best).

(** *** The reference notion: longest common contiguous substring *)

(** [a[i:i+k]] and [b[j:j+k]] are the same block of [k] elements. *)
Definition common_at (a b : list A) (i j k : nat) : Prop :=
  i + k ≤ length a ∧ j + k ≤ length b ∧ take k (drop i a) = take k (drop j b).

Definition is_lcs_length (a b : list A) (n : nat) : Prop :=
  (∃ i j, common_at a b i j n) ∧ ∀ i j k, common_at a b i j k → k ≤ n.

Fixpoint common_prefix_length (a b : list A) : nat :=
  match a, b with
  | x :: a', y :: b' => if decide (x = y) then S (common_prefix_length a' b') else 0
  | _, _ => 0
  end.

Fixpoint tails (l : list A) : list (list A) :=
  l :: match l with [] => [] | _ :: t => tails t end.

(** The length of the longest block that occurs in both lists, by
    trying every pair of starting positions. *)
Definition lcs_length (a b : list A) : nat :=
  max_list (a' ← tails a; b' ← tails b; [common_prefix_length a' b']).

(** The table the two loops fill: the length of the longest common block
    that ends at [a[i]] and [b[j]]. *)
Fixpoint common_suffix_at (a b : list A) (i j : nat) : nat :=
  if same_at a b i j then
    S (match i, j with
       | S i', S j' => common_suffix_at a b i' j'
       | _, _ => 0
       end)
  else 0.

(** The positions of [x] in [b], in increasing order and counted from
    [i]: what [b2j[x]] holds when nothing is purged. *)
Fixpoint occurrences (x : A) (i : nat) (b : list A) : list nat :=
  match b with
  | [] => []
  | y :: t =>
      if decide (y = x) then i :: occurrences x (S i) t
      else occurrences x (S i) t
  end.

End SequenceMatcher.

End Difflib.

(** ** Output and exceptions *)

(** A CSV record as [csv.DictReader] yields it: a [dict] from column name
    to field text (records are taken to have as many fields as the header,
    so that no value is [None]). *)
Abbreviation Row := (gmap string string).

Inductive exn : Type :=
| FileNotFoundError (msg : string)
| ValueError (msg : string)
| TypeError (msg : string)
| IsADirectoryError (msg : string)
| KeyError (key : string)
| AttributeError (obj attr : string).

(** The text handed to [printError].  The two schema messages format a
    [set], whose rendering depends on its iteration order; they keep the
    set itself. *)
Inductive message : Type :=
| Text (s : string)
| InvalidColumns (columns : gset string)   (* "Invalid columns: {}".format(...) *)
| MissingColumns (columns : gset string).  (* "Missing columns: {}".format(...) *)

(** One call of [print]. *)
Inductive line : Type :=
| PrintPath (path : string)        (* print("==> {}".format(path)) *)
| PrintException (e : exn)         (* print("ERROR: {}".format(e)) *)
| PrintError (text : message)      (* print("ERROR: " + text) *)
| PrintRow (row : Row).            (* print(row) *)

Inductive result (A : Type) : Type :=
| Return (a : A)
| Raise (e : exn).
Arguments Return {A} a.
Arguments Raise {A} e.

(** A computation: the lines printed, and how it ended. *)
Definition M (A : Type) : Type := list line * result A.

Definition ret {A} (a : A) : M A := ([], Return a).
Definition raise {A} (e : exn) : M A := ([], Raise e).
Definition print (l : line) : M unit := ([l], Return tt).

Definition bind {A B} (m : M A) (f : A -> M B) : M B :=
  match m with
  | (out, Return a) => let '(out', r) := f a in (out ++ out', r)
  | (out, Raise e) => (out, Raise e)
  end.

Notation "'do' x <- m ; k" := (bind m (fun x => k))
  (at level 10, x name, m at level 100, k at level 200).
Notation "m ;; k" := (bind m (fun _ => k))
  (at level 100, k at level 200, right associativity).

Definition output {A} (m : M A) : list line := m.1.
Definition outcome {A} (m : M A) : result A := m.2.

(** [row[key]] *)
Definition getitem (row : Row) (key : string) : M string :=
  match row !! key with
  | Some v => ret v
  | None => raise (KeyError key)
  end.

(** ** The file system and the CSV reader

    Both are outside the script: a path leads to nothing, to a directory
    or to a regular file, and [csv.DictReader] turns the text of a file
    into its header ([fieldnames], [None] for an empty file) and its
    records. *)

Record CsvFile : Type :=
  mkCsvFile { fieldnames : option (list string); records : list Row }.

Inductive Node : Type :=
| Directory
| RegularFile (content : CsvFile).

Abbreviation FileSystem := (string -> option Node).

(** ** What Python provides

    [title s] is [s.title()], and [int s] is [int(s)], with [None] for the
    [ValueError] it raises. *)

Class PyLib : Type := {
  title : string -> string;
  int : string -> option Z
}.

(** ** [class Verifier] *)

Definition validColumns : gset string :=
  list_to_set ["county"; "precinct"; "office"; "district"; "party";
               "candidate"; "votes"; "notes"].
Definition requiredColumns : gset string :=
  list_to_set ["county"; "precinct"; "office"; "district"; "party";
               "candidate"; "votes"].
Definition validOffices : gset string :=
  list_to_set ["President"; "U.S. Senate"; "U.S. House"; "Governor";
               "State Senate"; "State House"; "Attorney General";
               "Secretary of State"; "State Treasurer"].
Definition officesWithDistricts : gset string :=
  list_to_set ["U.S. House"; "State Senate"; "State House"].
Definition pseudocandidates : gset string :=
  list_to_set ["Write-in"; "Under Votes"; "Over Votes"; "Total"].
Definition normalizedPseudocandidates : gset string :=
  list_to_set ["writein"; "undervotes"; "overvotes"; "total"].

(** The subclasses; [Verifier] itself is never instantiated. *)
Inductive Class : Type :=
| GeneralPrecinctVerifier
| PrimaryPrecinctVerifier
| SpecialPrecinctVerifier
| PrimaryVerifier
| GeneralVerifier.

Definition class_name (c : Class) : string :=
  match c with
  | GeneralPrecinctVerifier => "GeneralPrecinctVerifier"
  | PrimaryPrecinctVerifier => "PrimaryPrecinctVerifier"
  | SpecialPrecinctVerifier => "SpecialPrecinctVerifier"
  | PrimaryVerifier => "PrimaryVerifier"
  | GeneralVerifier => "GeneralVerifier"
  end.

(** An instance.  [filename], [filenameState] and [filenameCounty] are
    attributes that [__init__] sets only when it gets that far: [None]
    stands for an attribute the object does not have.  ([reader] and the
    unused [countyRE] are not kept.) *)
Record Verifier : Type := mkVerifier {
  class_of : Class;
  path : string;
  columns : list string;
  ready : bool;
  filename : option string;
  filenameState : option string;
  filenameCounty : option string
}.

(** [self.attr] for an attribute that may be missing. *)
Definition getattr (self : Verifier) (attr : string) (v : option string) : M string :=
  match v with
  | Some s => ret s
  | None => raise (AttributeError (class_name (class_of self)) attr)
  end.

(** [Verifier.__new__(Verifier, path)]: the subclass for the file name, or
    [None] when the function falls off its end. *)
Definition __new__ (path : string) : option Class :=
  let filename := PyStr.basename path in
  if PyStr.contains "general" filename then
    if PyStr.contains "precinct" filename then Some GeneralPrecinctVerifier
    else Some GeneralVerifier
  else if PyStr.contains "primary" filename then
    if PyStr.contains "precinct" filename then Some PrimaryPrecinctVerifier
    else Some PrimaryVerifier
  else if PyStr.contains "special" filename && PyStr.contains "precinct" filename then
    Some SpecialPrecinctVerifier
  else None.

Definition pathSanityCheck (fs : FileSystem) (path : string) : M unit :=
  match fs path with
  | Some (RegularFile _) =>
      if negb (String.eqb (PyStr.splitext path).2 ".csv") then
        raise (ValueError ("Filename does not end in .csv: " +:+ path))
      else print (PrintPath path)
  | _ => raise (FileNotFoundError ("Can't find file at path " +:+ path))
  end.

(** What [deriveStateCountyFromFilename] returns: a pair, or the [""] of
    its last line. *)
Inductive derived : Type :=
| Pair (state county : string)
| EmptyStr.

Definition deriveStateCountyFromFilename `{PyLib} (filename : string) : derived :=
  match PyStr.split__ filename with
  | [_; c1; _; c3; _] => Pair c1 (title (PyStr.replace "_" " " c3))
  | _ => EmptyStr
  end.

(** The assignment [x, y = v]: the empty [str] has no character to
    unpack. *)
Definition unpack2 (v : derived) : M (string * string) :=
  match v with
  | Pair x y => ret (x, y)
  | EmptyStr => raise (ValueError "not enough values to unpack (expected 2, got 0)")
  end.

(** [__init__]: the body of the [try] is three steps, and an exception in
    any of them is printed and leaves [ready] at [False]. *)
Definition __init__ `{PyLib} (fs : FileSystem) (c : Class) (path : string) : M Verifier :=
  let self := mkVerifier c path [] false None None None in
  match pathSanityCheck fs path with
  | (out, Raise e) => (out ++ [PrintException e], Return self)
  | (out, Return _) =>
      let filename := PyStr.basename path in
      let self := mkVerifier c path [] false (Some filename) None None in
      match unpack2 (deriveStateCountyFromFilename filename) with
      | (out', Raise e) => (out ++ out' ++ [PrintException e], Return self)
      | (out', Return (state, county)) =>
          (out ++ out',
           Return (mkVerifier c path [] true (Some filename) (Some state) (Some county)))
      end
  end.

(** [Verifier(path)]: [__init__] runs only on what [__new__] returned when
    that is an instance; otherwise the call evaluates to [None]. *)
Definition Verifier_call `{PyLib} (fs : FileSystem) (path : string) : M (option Verifier) :=
  match __new__ path with
  | Some c => do self <- __init__ fs c path; ret (Some self)
  | None => ret None
  end.

Definition printError (text : message) (row : option Row) : M unit :=
  print (PrintError text);;
  match row with
  | Some r => if decide (r = ∅) then ret tt else print (PrintRow r)
  | None => ret tt
  end.

Definition verifyColumns (self : Verifier) (columns : list string) : M bool :=
  let invalidColumns : gset string := list_to_set columns ∖ validColumns in
  let missingColumns : gset string := requiredColumns ∖ list_to_set columns in
  (if decide (invalidColumns = ∅) then ret tt
   else printError (InvalidColumns invalidColumns) None);;
  if decide (missingColumns = ∅) then ret true
  else printError (MissingColumns missingColumns) None;; ret false.

Definition verifyCounty `{PyLib} (self : Verifier) (row : Row) : M unit :=
  do county <- getitem row "county";
  let normalisedCounty := title county in
  do filenameCounty <- getattr self "filenameCounty" (filenameCounty self);
  (if negb (String.eqb normalisedCounty filenameCounty)
   then printError (Text "County doesn't match filename") (Some row)
   else ret tt);;
  do county <- getitem row "county";
  if negb (String.eqb county normalisedCounty)
  then printError (Text "Use title case for the county") (Some row)
  else ret tt.

(** The call is written [self.self.printError(...)]: looking up [self] on
    the instance raises before any argument is evaluated. *)
Definition verifyOffice (self : Verifier) (row : Row) : M unit :=
  do office <- getitem row "office";
  if negb (bool_decide (office ∈ validOffices))
  then raise (AttributeError (class_name (class_of self)) "self")
  else ret tt.

Definition verifyInteger `{PyLib} (numberStr : string) : bool :=
  match int numberStr with
  | Some _ => true
  | None => false
  end.

Definition verifyDistrict `{PyLib} (self : Verifier) (row : Row) : M unit :=
  do office <- getitem row "office";
  if bool_decide (office ∈ officesWithDistricts) then
    do district <- getitem row "district";
    if String.eqb district "" then
      do office <- getitem row "office";
      printError (Text ("Office '" +:+ office +:+ "' requires a district")) (Some row)
    else if String.eqb (PyStr.lower district) "x" then
      do filenameState <- getattr self "filenameState" (filenameState self);
      if String.eqb filenameState "ms" then ret tt
      else printError (Text "District must be an integer") (Some row)
    else if negb (verifyInteger district) then
      printError (Text "District must be an integer") (Some row)
    else ret tt
  else ret tt.

(** [charsRE.sub('', candidate).lower()] *)
Definition normalize (candidate : string) : string :=
  PyStr.lower (PyStr.sfilter PyStr.isalpha candidate).

(** [SequenceMatcher(None, x, npc).find_longest_match(0, len(x), 0, len(npc))] *)
Definition longest_match (x npc : string) : Difflib.Match :=
  let a := list_ascii_of_string x in
  let b := list_ascii_of_string npc in
  Difflib.find_longest_match (Difflib.new a b) 0 (length a) 0 (length b).

(** The [for npc in ...] loop of [verifyCandidate], left at the first
    match by [break]. *)
Fixpoint compareTokens (candidate normalizedCandidate : string) (row : Row)
    (npcs : list string) : M unit :=
  match npcs with
  | [] => ret tt
  | npc :: rest =>
      if 4 <? Difflib.size (longest_match normalizedCandidate npc) then
        printError (Text ("Misspelled pseudocandidate: '" +:+ candidate +:+ "'"))
                   (Some row)
      else compareTokens candidate normalizedCandidate row rest
  end.

(** A [frozenset] is iterated in an order Python does not fix; the model
    takes the order of [elements]. *)
Definition verifyCandidate (self : Verifier) (row : Row) : M unit :=
  do candidate <- getitem row "candidate";
  let normalizedCandidate := normalize candidate in
  if negb (bool_decide (candidate ∈ pseudocandidates)) then
    if bool_decide (normalizedCandidate ∈ normalizedPseudocandidates) then
      printError (Text ("Misspelled pseudocandidate: '" +:+ candidate +:+ "'"))
                 (Some row)
    else compareTokens candidate normalizedCandidate row
           (elements normalizedPseudocandidates)
  else ret tt.

(** [Verifier.verifyParty], inherited by every subclass but one. *)
Definition Verifier_verifyParty (self : Verifier) (row : Row) : M unit :=
  do candidate <- getitem row "candidate";
  if negb (bool_decide (candidate ∈ pseudocandidates)) then
    do party <- getitem row "party";
    if String.eqb party "" then printError (Text "Party missing") (Some row)
    else ret tt
  else ret tt.

(** [PrimaryPrecinctVerifier.verifyParty] *)
Definition PrimaryPrecinctVerifier_verifyParty (self : Verifier) (row : Row) : M unit :=
  do party <- getitem row "party";
  if String.eqb party ""
  then printError (Text "Primary results must include a party for every row") (Some row)
  else ret tt.

(** [self.verifyParty(row)], resolved on the class of [self]. *)
Definition verifyParty (self : Verifier) (row : Row) : M unit :=
  match class_of self with
  | PrimaryPrecinctVerifier => PrimaryPrecinctVerifier_verifyParty self row
  | _ => Verifier_verifyParty self row
  end.

(** The body of the [for row in self.reader] loop. *)
Definition verifyRow `{PyLib} (self : Verifier) (row : Row) : M unit :=
  verifyCounty self row;;
  verifyOffice self row;;
  verifyDistrict self row;;
  verifyCandidate self row;;
  verifyParty self row.

Fixpoint verifyRows `{PyLib} (self : Verifier) (rows : list Row) : M unit :=
  match rows with
  | [] => ret tt
  | row :: rest => verifyRow self row;; verifyRows self rest
  end.

Definition parseFileAtPath `{PyLib} (fs : FileSystem) (self : Verifier) (path : string) : M unit :=
  match fs path with
  | Some (RegularFile csvfile) =>
      match fieldnames csvfile with
      | Some names =>
          do ok <- verifyColumns self names;
          if ok then verifyRows self (records csvfile) else ret tt
      | None => raise (TypeError "'NoneType' object is not iterable")
      end
  | Some Directory => raise (IsADirectoryError path)
  | None => raise (FileNotFoundError path)
  end.

Definition verify `{PyLib} (fs : FileSystem) (self : Verifier) : M unit :=
  parseFileAtPath fs self (path self).

(** One turn of the loop of [main]. *)
Definition main_step `{PyLib} (fs : FileSystem) (path : string) : M unit :=
  do verifier <- Verifier_call fs path;
  match verifier with
  | None => raise (AttributeError "NoneType" "ready")
  | Some self =>
      if ready self then
        do filename <- getattr self "filename" (filename self);
        if negb (PyStr.contains "matrix" filename) then verify fs self else ret tt
      else ret tt
  end.

Fixpoint main `{PyLib} (fs : FileSystem) (paths : list string) : M unit :=
  match paths with
  | [] => ret tt
  | path :: rest => main_step fs path;; main fs rest
  end.

(** [str.title] and [int] as they are on ASCII text ([int] without the
    bound that some interpreters put on the number of digits).  The sample
    files are run with this instance. *)
#[global] Instance ascii_text : PyLib := {| title := PyStr.title; int := PyStr.int |}.

(** ** Reading the output *)

(** The findings among the printed lines: the texts given to
    [printError], in the order of their emission. *)
Definition findings (out : list line) : list message :=
  omap (fun l => match l with PrintError text => Some text | _ => None end) out.

Definition chars (s : string) : list ascii := list_ascii_of_string s.

(** ** Sample files and records *)

Definition header : list string :=
  ["county"; "precinct"; "office"; "district"; "party"; "candidate"; "votes"].

Definition mkRow (county precinct office district party candidate votes : string) : Row :=
  list_to_map [("county", county); ("precinct", precinct); ("office", office);
               ("district", district); ("party", party); ("candidate", candidate);
               ("votes", votes)].

Definition fs_of (files : list (string * Node)) : FileSystem :=
  fun path => (list_to_map files : gmap string Node) !! path.

Definition hood_river_path : string :=
  "2016/20161108__or__general__hood_river__precinct.csv".

(** The instance [Verifier(hood_river_path)] is, for an Oregon file and
    for the same file name under Mississippi. *)
Definition hood_river : Verifier :=
  mkVerifier GeneralPrecinctVerifier hood_river_path [] true
    (Some "20161108__or__general__hood_river__precinct.csv")
    (Some "or") (Some "Hood River").

Definition hinds : Verifier :=
  mkVerifier GeneralPrecinctVerifier "20151103__ms__general__hinds__precinct.csv" [] true
    (Some "20151103__ms__general__hinds__precinct.csv")
    (Some "ms") (Some "Hinds").

Definition primary_county_path : string := "20160517__or__primary__baker__county.csv".
Definition primary_precinct_path : string := "20160517__or__primary__baker__precinct.csv".

(** A tally line of a primary: the pseudocandidate [Total], no party. *)
Definition total_row : Row := mkRow "Baker" "1" "President" "" "" "Total" "120".

Definition primary_files : FileSystem :=
  fs_of [(primary_county_path, RegularFile (mkCsvFile (Some header) [total_row]));
         (primary_precinct_path, RegularFile (mkCsvFile (Some header) [total_row]))].

(** A record with an office outside the recognized nine, and one after it
    that lacks a party. *)
Definition mayor_row : Row := mkRow "Hood River" "1" "Mayor" "" "NP" "Jane Roe" "10".
Definition partyless_row : Row := mkRow "Hood River" "2" "Governor" "" "" "John Doe" "7".

Definition mayor_files : FileSystem :=
  fs_of [(hood_river_path, RegularFile (mkCsvFile (Some header) [mayor_row; partyless_row]));
         (primary_precinct_path, RegularFile (mkCsvFile (Some header) [total_row]))].

(** A county-level special election: no selection rule matches the name. *)
Definition special_county_path : string := "20150915__or__special__baker.csv".

Definition special_files : FileSystem :=
  fs_of [(special_county_path, RegularFile (mkCsvFile (Some header) [total_row]));
         (primary_precinct_path, RegularFile (mkCsvFile (Some header) [total_row]))].

(** A header with a column outside the schema, and one without
    [district]. *)
Definition turnout_header : list string := header ++ ["turnout"].
Definition turnout_row : Row := <["turnout" := "55"]> partyless_row.
Definition turnout_files : FileSystem :=
  fs_of [(hood_river_path, RegularFile (mkCsvFile (Some turnout_header) [turnout_row]))].

Definition districtless_header : list string :=
  ["county"; "precinct"; "office"; "party"; "candidate"; "votes"].
Definition districtless_files : FileSystem :=
  fs_of [(hood_river_path,
          RegularFile (mkCsvFile (Some districtless_header)
                         [delete "district" mayor_row; delete "district" partyless_row]))].


Definition sample_files : FileSystem :=
  fs_of [(hood_river_path, RegularFile (mkCsvFile (Some header) []));
         (path hinds, RegularFile (mkCsvFile (Some header) []))].

(** ["__".join(components)], the inverse of the split of a file name. *)
Fixpoint join__ (components : list string) : string :=
  match components with
  | [] => ""
  | h :: t =>
      match t with
      | [] => h
      | _ :: _ => h +:+ "__" +:+ join__ t
      end
  end.

(** A file whose name carries the tag [matrix], and an empty file. *)
Definition matrix_path : string := "20161108__or__general__baker__precinct_matrix.csv".
Definition empty_path : string := "20161108__or__general__baker__precinct.csv".
Definition odd_files : FileSystem :=
  fs_of [(matrix_path, RegularFile (mkCsvFile (Some []) [partyless_row]));
         (empty_path, RegularFile (mkCsvFile None []));
         ("2016/general", Directory);
         ("20161108__or__general__baker__precinct.txt",
          RegularFile (mkCsvFile (Some header) []))].


(** * Properties *)

(** ** The monad *)

Lemma bind_ret_l {A B} (a : A) (f : A -> M B) : bind (ret a) f = f a.
Proof. unfold bind, ret. by destruct (f a). Qed.

Lemma bind_raise_l {A B} (e : exn) (f : A -> M B) : bind (raise e) f = raise e.
Proof. reflexivity. Qed.

Lemma bind_print {B} (l : line) (f : unit -> M B) :
  bind (print l) f = (l :: output (f tt), outcome (f tt)).
Proof. unfold bind, print, output, outcome. by destruct (f tt). Qed.

Lemma bind_assoc {A B C} (m : M A) (f : A -> M B) (g : B -> M C) :
  bind (bind m f) g = bind m (fun a => bind (f a) g).
Proof.
  destruct m as [out [a|e]]; simpl; [|done].
  destruct (f a) as [out' [b|e]]; simpl; [|done].
  destruct (g b) as [out'' r]. by rewrite app_assoc.
Qed.

Lemma bind_returns {A B} (m : M A) (f : A -> M B) (a : A) :
  outcome m = Return a ->
  bind m f = (output m ++ output (f a), outcome (f a)).
Proof.
  destruct m as [out r]; simpl; intros ->. unfold output, outcome.
  by destruct (f a).
Qed.

Lemma bind_raises {A B} (m : M A) (f : A -> M B) (e : exn) :
  outcome m = Raise e -> bind m f = (output m, Raise e).
Proof. destruct m as [out r]; simpl; by intros ->. Qed.

Lemma getitem_Some (row : Row) (key v : string) :
  row !! key = Some v -> getitem row key = ret v.
Proof. unfold getitem. by intros ->. Qed.

Lemma getitem_None (row : Row) (key : string) :
  row !! key = None -> getitem row key = raise (KeyError key).
Proof. unfold getitem. by intros ->. Qed.

Lemma printError_row (text : message) (row : Row) :
  row ≠ ∅ -> printError text (Some row) = ([PrintError text; PrintRow row], Return tt).
Proof. intros Hne. unfold printError. by destruct (decide (row = ∅)). Qed.

Lemma printError_no_row (text : message) :
  printError text None = ([PrintError text], Return tt).
Proof. reflexivity. Qed.

Lemma row_nonempty (row : Row) (key v : string) : row !! key = Some v -> row ≠ ∅.
Proof. intros Hk ->. by rewrite lookup_empty in Hk. Qed.

Lemma eqb_decide (s t : string) : String.eqb s t = bool_decide (s = t).
Proof.
  destruct (String.eqb_spec s t).
  - by rewrite bool_decide_eq_true_2.
  - by rewrite bool_decide_eq_false_2.
Qed.

(** ** [difflib]: the longest match is a longest common substring *)

Section longest_match.
Import Difflib.
Context {A : Type} `{Countable A}.
Implicit Types a b : list A.

Lemma chain_from_lookup b : forall i (m : gmap A (list nat)) x,
  chain_from i b m !! x =
    match occurrences x i b with
    | [] => m !! x
    | js => Some (default [] (m !! x) ++ js)
    end.
Proof.
  induction b as [|y t IH]; intros i m x; simpl; [done|].
  rewrite IH. destruct (decide (y = x)) as [->|Hne].
  - rewrite lookup_insert_eq; simpl.
    destruct (occurrences x (S i) t); [done|]. by rewrite <- app_assoc.
  - by rewrite lookup_insert_ne.
Qed.

Lemma elem_of_occurrences b : forall x i j,
  j ∈ occurrences x i b <-> exists k, j = i + k /\ b !! k = Some x.
Proof.
  induction b as [|y t IH]; intros x i j; simpl.
  - rewrite elem_of_nil. split; [done|]. by intros (k & _ & ?).
  - assert (Htail : j ∈ occurrences x (S i) t <->
                    exists k, j = i + S k /\ t !! k = Some x).
    { rewrite IH. split; intros (k & -> & ?); exists k; split; [lia|done|lia|done]. }
    destruct (decide (y = x)) as [->|Hne].
    + rewrite elem_of_cons, Htail. split.
      * intros [->|(k & -> & ?)]; [exists 0|exists (S k)]; split; [lia|done|lia|done].
      * intros ([|k] & -> & Hk); [left; lia|right; exists k; split; [lia|done]].
    + rewrite Htail. split.
      * intros (k & -> & ?). exists (S k). split; [lia|done].
      * intros ([|k] & -> & Hk); simpl in Hk; [congruence|]. by exists k.
Qed.

(** Below 200 elements nothing is purged: [b2j] maps an element to its
    positions in [b]. *)
Lemma chain_b_small b x :
  length b < 200 -> default [] (chain_b true b !! x) = occurrences x 0 b.
Proof.
  intros Hlen. unfold chain_b.
  replace (200 <=? length b) with false by (symmetry; apply Nat.leb_gt; lia).
  simpl. rewrite chain_from_lookup, lookup_empty.
  by destruct (occurrences x 0 b).
Qed.

Lemma same_at_true a b i j :
  same_at a b i j = true <-> exists x, a !! i = Some x /\ b !! j = Some x.
Proof.
  unfold same_at. destruct (a !! i) as [x|], (b !! j) as [y|]; split;
    try done; try (by intros (? & ? & ?)).
  - intros ->%bool_decide_eq_true. by exists y.
  - intros (z & [= ->] & [= ->]). by apply bool_decide_eq_true.
Qed.

Lemma common_at_0 a b i j : i ≤ length a -> j ≤ length b -> common_at a b i j 0.
Proof. intros. unfold common_at. rewrite !take_0. repeat split; lia. Qed.

Lemma common_at_snoc a b p q k :
  common_at a b p q k -> same_at a b (p + k) (q + k) = true ->
  common_at a b p q (S k).
Proof.
  intros (Hp & Hq & Heq) (x & Ha & Hb)%same_at_true.
  pose proof (lookup_lt_Some _ _ _ Ha). pose proof (lookup_lt_Some _ _ _ Hb).
  repeat split; [lia..|].
  rewrite (take_S_r (drop p a) k x) by (by rewrite lookup_drop).
  rewrite (take_S_r (drop q b) k x) by (by rewrite lookup_drop).
  by rewrite Heq.
Qed.

Lemma common_at_cons a b p q k :
  common_at a b (S p) (S q) k -> same_at a b p q = true ->
  common_at a b p q (S k).
Proof.
  intros (Hp & Hq & Heq) (x & Ha & Hb)%same_at_true.
  repeat split; [lia..|].
  rewrite (drop_S a x p Ha), (drop_S b x q Hb). simpl. by rewrite Heq.
Qed.

Lemma common_at_shrink a b p q k :
  common_at a b p q (S k) ->
  common_at a b p q k /\ same_at a b (p + k) (q + k) = true.
Proof.
  intros (Hp & Hq & Heq).
  destruct (lookup_lt_is_Some_2 a (p + k)) as [x Ha]; [lia|].
  destruct (lookup_lt_is_Some_2 b (q + k)) as [y Hb]; [lia|].
  rewrite (take_S_r (drop p a) k x) in Heq by (by rewrite lookup_drop).
  rewrite (take_S_r (drop q b) k y) in Heq by (by rewrite lookup_drop).
  apply app_inj_2 in Heq as [Heq [= ->]]; [|done].
  split; [repeat split; [lia..|done]|].
  apply same_at_true. by exists y.
Qed.

Lemma common_suffix_at_eq a b i j :
  common_suffix_at a b i j =
    if same_at a b i j then
      S (match i, j with
         | S i', S j' => common_suffix_at a b i' j'
         | _, _ => 0
         end)
    else 0.
Proof. by destruct i. Qed.

(** A positive entry of the table is the length of a common block that
    ends at [a[i]] and [b[j]]. *)
Lemma common_suffix_at_valid a b : forall i j,
  same_at a b i j = true ->
  1 ≤ common_suffix_at a b i j ≤ S i /\ common_suffix_at a b i j ≤ S j /\
  common_at a b (S i - common_suffix_at a b i j) (S j - common_suffix_at a b i j)
            (common_suffix_at a b i j).
Proof.
  induction i as [|i IH]; intros j Hs; rewrite common_suffix_at_eq, Hs.
  - apply same_at_true in Hs as Hs'. destruct Hs' as (x & Ha & Hb).
    pose proof (lookup_lt_Some _ _ _ Ha). pose proof (lookup_lt_Some _ _ _ Hb).
    split; [lia|]. split; [lia|].
    replace (1 - 1) with 0 by lia. replace (S j - 1) with j by lia.
    apply (common_at_snoc a b 0 j 0); [apply common_at_0; lia|].
    by rewrite !Nat.add_0_r.
  - apply same_at_true in Hs as Hs'. destruct Hs' as (x & Ha & Hb).
    pose proof (lookup_lt_Some _ _ _ Ha). pose proof (lookup_lt_Some _ _ _ Hb).
    destruct j as [|j].
    + split; [lia|]. split; [lia|].
      replace (S (S i) - 1) with (S i) by lia. replace (1 - 1) with 0 by lia.
      apply (common_at_snoc a b (S i) 0 0); [apply common_at_0; lia|].
      by rewrite !Nat.add_0_r.
    + destruct (same_at a b i j) eqn:Hs'.
      * destruct (IH j Hs') as (Hk & Hkj & Hc).
        set (k := common_suffix_at a b i j) in *.
        split; [lia|]. split; [lia|].
        replace (S (S i) - S k) with (S i - k) by lia.
        replace (S (S j) - S k) with (S j - k) by lia.
        apply common_at_snoc; [done|].
        replace (S i - k + k) with (S i) by lia.
        by replace (S j - k + k) with (S j) by lia.
      * rewrite (common_suffix_at_eq a b i j), Hs'.
        split; [lia|]. split; [lia|].
        replace (S (S i) - 1) with (S i) by lia.
        replace (S (S j) - 1) with (S j) by lia.
        apply (common_at_snoc a b (S i) (S j) 0); [apply common_at_0; lia|].
        by rewrite !Nat.add_0_r.
Qed.

(** Every common block is counted by the table entry at its last pair. *)
Lemma common_suffix_at_bound a b p q : forall k,
  common_at a b p q (S k) -> S k ≤ common_suffix_at a b (p + k) (q + k).
Proof.
  induction k as [|k IH]; intros [Hc Hs]%common_at_shrink;
    rewrite common_suffix_at_eq, Hs; [lia|].
  specialize (IH Hc).
  replace (p + S k) with (S (p + k)) by lia.
  replace (q + S k) with (S (q + k)) by lia. lia.
Qed.

(** The inner loop, for [blo = 0] and positions below [bhi]: it records
    [j2len[j-1] + 1] at every position, and [best] ends as the old one or
    as a longer block found at one of the positions. *)
Lemma scan_row_spec bhi (j2len : gmap nat nat) i : forall js new best,
  (forall j, j ∈ js -> j < bhi) ->
  exists new' best',
    scan_row 0 bhi j2len i js new best = (new', best') /\
    (forall j, new' !! j =
       if decide (j ∈ js) then Some (j2lenget j2len j + 1) else new !! j) /\
    size best ≤ size best' /\
    (forall j, j ∈ js -> j2lenget j2len j + 1 ≤ size best') /\
    (best' = best \/
     exists j, j ∈ js /\
       best' = mkMatch (S i - (j2lenget j2len j + 1)) (S j - (j2lenget j2len j + 1))
                       (j2lenget j2len j + 1)).
Proof.
  induction js as [|j js IH]; intros new best Hjs; simpl.
  - exists new, best. split; [done|]. split.
    { intros j. destruct (decide (j ∈ [])) as [Hin|]; [|done].
      by apply elem_of_nil in Hin. }
    split; [lia|]. split; [|by left].
    intros j Hin. by apply elem_of_nil in Hin.
  - assert (Hj : j < bhi) by (apply Hjs; left).
    replace (bhi <=? j) with false by (symmetry; apply Nat.leb_gt; lia).
    set (k := j2lenget j2len j + 1).
    set (best1 := if size best <? k then mkMatch (S i - k) (S j - k) k else best).
    destruct (IH (<[j:=k]> new) best1) as (new' & best' & Hrun & Hnew & Hmono & Hall & Hbest).
    { intros j' Hin. apply Hjs. by right. }
    exists new', best'. split; [done|].
    assert (Hbest1 : size best ≤ size best1 /\ k ≤ size best1).
    { unfold best1. destruct (Nat.ltb_spec (size best) k); simpl; lia. }
    split.
    { intros j'. rewrite Hnew.
      destruct (decide (j' ∈ js)) as [Hin|Hnin].
      - rewrite decide_True; [done|by right].
      - destruct (decide (j' = j)) as [->|Hne].
        + rewrite lookup_insert_eq, decide_True; [done|left].
        + rewrite lookup_insert_ne by done. rewrite decide_False; [done|].
          intros [?|?]%elem_of_cons; done. }
    split; [lia|]. split.
    { intros j' [->|Hin]%elem_of_cons; [fold k; lia|by apply Hall]. }
    destruct Hbest as [->|(j' & Hin & ->)].
    + unfold best1. destruct (Nat.ltb_spec (size best) k); [right|by left].
      exists j. split; [left|done].
    + right. exists j'. split; [by right|done].
Qed.

(** What the outer loop keeps true from one element of [a] to the next:
    [j2len] is the previous line of the table, [best] is a common block,
    and no entry of the lines already seen is longer than [best]. *)
Lemma scan_rows_spec a b : length b < 200 ->
  forall arest i (j2len : gmap nat nat) best,
  drop i a = arest ->
  (forall j, default 0 (j2len !! j) =
     match i with 0 => 0 | S i' => common_suffix_at a b i' j end) ->
  common_at a b (m_a best) (m_b best) (size best) ->
  (forall i' j, i' < i -> common_suffix_at a b i' j ≤ size best) ->
  let r := scan_rows (chain_b true b) 0 (length b) i arest j2len best in
  common_at a b (m_a r) (m_b r) (size r) /\
  size best ≤ size r /\
  forall i' j, common_suffix_at a b i' j ≤ size r.
Proof.
  intros Hlen. induction arest as [|x t IH]; intros i j2len best Hdrop Hj2 Hvalid Hbound; simpl.
  - split; [done|]. split; [lia|]. intros i' j.
    destruct (Nat.lt_ge_cases i' i) as [Hlt|Hge]; [by apply Hbound|].
    rewrite common_suffix_at_eq. unfold same_at.
    rewrite (lookup_ge_None_2 a i'); [lia|].
    apply drop_nil_inv in Hdrop. lia.
  - assert (Hai : a !! i = Some x).
    { rewrite <- (Nat.add_0_r i), <- lookup_drop, Hdrop. done. }
    assert (Hocc : forall j, j ∈ occurrences x 0 b <-> same_at a b i j = true).
    { intros j. rewrite elem_of_occurrences, same_at_true. split.
      - intros (k & -> & Hk). by exists x.
      - intros (y & Hy & Hb). exists j. split; [done|]. congruence. }
    rewrite (chain_b_small b x Hlen).
    destruct (scan_row_spec (length b) j2len i (occurrences x 0 b) ∅ best)
      as (new' & best' & -> & Hnew & Hmono & Hall & Hbest).
    { intros j (y & _ & Hb)%Hocc%same_at_true. by eapply lookup_lt_Some. }
    assert (Hk : forall j, same_at a b i j = true ->
                  j2lenget j2len j + 1 = common_suffix_at a b i j).
    { intros j Hs. rewrite (common_suffix_at_eq a b i j), Hs.
      destruct j as [|j]; simpl; [destruct i; lia|].
      rewrite Hj2. destruct i; lia. }
    assert (Hzero : forall j, same_at a b i j = false -> common_suffix_at a b i j = 0).
    { intros j Hs. by rewrite common_suffix_at_eq, Hs. }
    destruct (IH (S i) new' best') as (Hr1 & Hr2 & Hr3).
    + by rewrite (drop_S a x i Hai) in Hdrop; injection Hdrop.
    + intros j. rewrite Hnew. destruct (decide (j ∈ occurrences x 0 b)) as [Hin|Hnin].
      * simpl. apply Hk. by apply Hocc.
      * rewrite lookup_empty; simpl. symmetry. apply Hzero.
        destruct (same_at a b i j) eqn:Hs; [|done]. by apply Hocc in Hs.
    + destruct Hbest as [->|(j & Hin & ->)]; [done|]. simpl.
      apply Hocc in Hin. rewrite (Hk j Hin).
      by apply common_suffix_at_valid.
    + intros i' j Hlt. destruct (decide (i' = i)) as [->|Hne].
      * destruct (same_at a b i j) eqn:Hs.
        -- rewrite <- (Hk j Hs). apply Hall. by apply Hocc.
        -- rewrite (Hzero j Hs). lia.
      * etrans; [apply Hbound; lia|done].
    + split; [done|]. split; [lia|done].
Qed.

Lemma extend_left_spec a b : forall besti bestj bestsize,
  common_at a b besti bestj bestsize ->
  let r := extend_left a b 0 0 besti bestj bestsize in
  common_at a b (m_a r) (m_b r) (size r) /\ bestsize ≤ size r.
Proof.
  induction besti as [|i IH]; intros bestj bestsize Hc; simpl; [by split|].
  destruct bestj as [|j]; [by split|]. simpl.
  destruct (same_at a b i j) eqn:Hs; simpl; [|by split].
  destruct (IH j (S bestsize)) as [? ?]; [by apply common_at_cons|].
  split; [done|lia].
Qed.

Lemma extend_right_spec a b ahi bhi : forall fuel besti bestj bestsize,
  common_at a b besti bestj bestsize ->
  let r := extend_right a b ahi bhi fuel besti bestj bestsize in
  common_at a b (m_a r) (m_b r) (size r) /\ bestsize ≤ size r.
Proof.
  induction fuel as [|fuel IH]; intros besti bestj bestsize Hc; simpl; [by split|].
  destruct ((besti + bestsize <? ahi) && (bestj + bestsize <? bhi)
            && same_at a b (besti + bestsize) (bestj + bestsize)) eqn:Hcond;
    simpl; [|by split].
  apply andb_true_iff in Hcond as [_ Hs].
  destruct (IH besti bestj (S bestsize)) as [? ?]; [by apply common_at_snoc|].
  split; [done|lia].
Qed.

(** The fuel given to the second loop is enough: with any larger amount
    the loop stops at the same place. *)
Lemma extend_right_fuel a b ahi bhi : forall fuel besti bestj bestsize,
  ahi - (besti + bestsize) ≤ fuel ->
  extend_right a b ahi bhi fuel besti bestj bestsize =
  extend_right a b ahi bhi (ahi - (besti + bestsize)) besti bestj bestsize.
Proof.
  induction fuel as [|fuel IH]; intros besti bestj bestsize Hfuel.
  - by replace (ahi - (besti + bestsize)) with 0 by lia.
  - destruct (Nat.ltb_spec (besti + bestsize) ahi) as [Hlt|Hge].
    + replace (ahi - (besti + bestsize)) with (S (ahi - (besti + S bestsize))) by lia.
      simpl. destruct (_ && _); [|done]. apply IH. lia.
    + replace (ahi - (besti + bestsize)) with 0 by lia. simpl.
      by replace (besti + bestsize <? ahi) with false
        by (symmetry; apply Nat.ltb_ge; lia).
Qed.

Lemma is_lcs_length_unique a b n m :
  is_lcs_length a b n -> is_lcs_length a b m -> n = m.
Proof.
  intros [(i & j & Hn) Hmaxn] [(i' & j' & Hm) Hmaxm].
  apply Nat.le_antisymm; [eapply Hmaxm|eapply Hmaxn]; done.
Qed.

(** The match that [find_longest_match(0, len(a), 0, len(b))] returns is
    a common block of [a] and [b], and no common block is longer. *)
Lemma find_longest_match_is_lcs a b :
  length b < 200 ->
  let r := find_longest_match (new a b) 0 (length a) 0 (length b) in
  common_at a b (m_a r) (m_b r) (size r) /\ is_lcs_length a b (size r).
Proof.
  intros Hlen. unfold find_longest_match, new; simpl.
  rewrite Nat.sub_0_r, drop_0, firstn_all.
  destruct (scan_rows_spec a b Hlen a 0 ∅ (mkMatch 0 0 0)) as (Hv & _ & Hmax).
  { apply drop_0. }
  { intros j. by rewrite lookup_empty. }
  { apply common_at_0; simpl; lia. }
  { intros; lia. }
  set (r0 := scan_rows _ _ _ _ _ _ _) in *.
  destruct (extend_left_spec a b _ _ _ Hv) as [Hv1 Hle1].
  set (r1 := extend_left _ _ _ _ _ _ _) in *.
  destruct (extend_right_spec a b (length a) (length b)
              (length a - (m_a r1 + size r1)) _ _ _ Hv1) as [Hv2 Hle2].
  set (r2 := extend_right _ _ _ _ _ _ _ _) in *.
  assert (Hub : forall i j k, common_at a b i j k -> k ≤ size r0).
  { intros i j [|k] Hc; [lia|].
    etrans; [by apply common_suffix_at_bound|apply Hmax]. }
  split; [done|]. split; [by exists (m_a r2), (m_b r2)|].
  intros i j k Hc. specialize (Hub i j k Hc). lia.
Qed.

Lemma elem_of_tails (l l' : list A) :
  l' ∈ tails l <-> exists i, i ≤ length l /\ l' = drop i l.
Proof.
  revert l'. induction l as [|x t IH]; intros l'; simpl.
  - rewrite list_elem_of_singleton. split.
    + intros ->. by exists 0.
    + intros (i & _ & ->). by rewrite drop_nil.
  - rewrite elem_of_cons, IH. split.
    + intros [->|(i & Hi & ->)]; [exists 0|exists (S i)]; split; [lia|done|lia|done].
    + intros ([|i] & Hi & ->); [by left|right]. exists i. split; [lia|done].
Qed.

Lemma common_prefix_length_spec : forall a b,
  common_prefix_length a b ≤ length a /\ common_prefix_length a b ≤ length b /\
  take (common_prefix_length a b) a = take (common_prefix_length a b) b.
Proof.
  induction a as [|x a IH]; intros [|y b]; simpl; try (repeat split; lia || done).
  destruct (decide (x = y)) as [->|]; simpl; [|repeat split; lia || done].
  destruct (IH b) as (? & ? & Heq). rewrite Heq. repeat split; lia || done.
Qed.

Lemma common_prefix_length_max : forall a b k,
  k ≤ length a -> k ≤ length b -> take k a = take k b ->
  k ≤ common_prefix_length a b.
Proof.
  induction a as [|x a IH]; intros [|y b] [|k]; simpl; try lia.
  intros Ha Hb [= -> Heq]. rewrite decide_True by done.
  apply le_n_S, IH; [lia..|done].
Qed.

Lemma lcs_length_spec a b : is_lcs_length a b (lcs_length a b).
Proof.
  unfold lcs_length.
  set (ns := (tails a ≫= λ a', tails b ≫= λ b', [common_prefix_length a' b'])).
  assert (Hin : forall n, n ∈ ns <->
    exists i j, i ≤ length a /\ j ≤ length b /\
                n = common_prefix_length (drop i a) (drop j b)).
  { intros n. unfold ns. rewrite list_elem_of_bind. split.
    - intros (a' & (b' & ->%list_elem_of_singleton & Hb)%list_elem_of_bind & Ha).
      apply elem_of_tails in Ha as (i & ? & ->).
      apply elem_of_tails in Hb as (j & ? & ->). by exists i, j.
    - intros (i & j & Hi & Hj & ->). exists (drop i a). split.
      + apply list_elem_of_bind. exists (drop j b).
        split; [by apply list_elem_of_singleton|].
        apply elem_of_tails. by exists j.
      + apply elem_of_tails. by exists i. }
  split.
  - assert (Hne : ns ≠ []).
    { intros Hnil. assert (Hz : common_prefix_length (drop 0 a) (drop 0 b) ∈ ns).
      { apply Hin. exists 0, 0. repeat split; lia. }
      rewrite Hnil in Hz. by apply elem_of_nil in Hz. }
    apply max_list_elem_of, Hin in Hne as (i & j & Hi & Hj & ->).
    exists i, j.
    destruct (common_prefix_length_spec (drop i a) (drop j b)) as (Hla & Hlb & Heq).
    rewrite !length_drop in *. repeat split; [lia..|done].
  - intros i j k (Hi & Hj & Heq).
    etrans; [|apply max_list_elem_of_le, Hin; exists i, j; repeat split; [lia..]].
    apply common_prefix_length_max; rewrite ?length_drop; [lia..|done].
Qed.

(** The size of the match is the length of the longest common block. *)
Lemma find_longest_match_size a b :
  length b < 200 ->
  size (find_longest_match (new a b) 0 (length a) 0 (length b)) = lcs_length a b.
Proof.
  intros Hlen. eapply is_lcs_length_unique; [|apply lcs_length_spec].
  by apply find_longest_match_is_lcs.
Qed.

End longest_match.

(** ** The county check *)

(** What [verifyCounty] prints, for a record that has a county and an
    instance that has the county of its file name. *)
Lemma verifyCounty_run `{PyLib} (self : Verifier) (row : Row) (county fc : string) :
  row !! "county" = Some county ->
  filenameCounty self = Some fc ->
  verifyCounty self row =
    ((if decide (title county = fc) then []
      else [PrintError (Text "County doesn't match filename"); PrintRow row]) ++
     (if decide (county = title county) then []
      else [PrintError (Text "Use title case for the county"); PrintRow row]),
     Return tt).
Proof.
  intros Hc Hfc. assert (Hne : row ≠ ∅) by (by eapply row_nonempty).
  unfold verifyCounty, getattr. rewrite (getitem_Some _ _ _ Hc), Hfc.
  rewrite !bind_ret_l, !eqb_decide, !printError_row by done.
  destruct (decide (title county = fc)) as [Ht|Ht];
    destruct (decide (county = title county)) as [Hr|Hr];
    rewrite ?(bool_decide_eq_true_2 _ Ht), ?(bool_decide_eq_false_2 _ Ht),
      ?(bool_decide_eq_true_2 _ Hr), ?(bool_decide_eq_false_2 _ Hr);
    reflexivity.
Qed.

Lemma mismatch_printed `{PyLib} (self : Verifier) (row : Row) (county fc : string) :
  row !! "county" = Some county ->
  filenameCounty self = Some fc ->
  PrintError (Text "County doesn't match filename") ∈ output (verifyCounty self row)
  <-> title county ≠ fc.
Proof.
  intros Hc Hfc. rewrite (verifyCounty_run self row county fc Hc Hfc).
  unfold output; simpl.
  destruct (decide (title county = fc));
    destruct (decide (county = title county)); simpl;
    rewrite ?elem_of_cons, ?elem_of_nil; split; try done; try tauto;
    intros Hl; repeat destruct Hl as [Hl|Hl]; try done; congruence.
Qed.

(** C9. With the row's county [county] and the county [fc] derived from
    the file name, [verifyCounty] ends normally and prints
    "County doesn't match filename" exactly when [title county] differs
    from [fc], then "Use title case for the county" exactly when [county]
    differs from [title county]; each finding is followed by the row, and
    the two tests do not depend on one another.  [title] is [str.title],
    whatever it computes. *)
Theorem verifyCounty_findings `{PyLib} (self : Verifier) (row : Row) (county fc : string) :
  row !! "county" = Some county ->
  filenameCounty self = Some fc ->
  verifyCounty self row =
    ((if decide (title county = fc) then []
      else [PrintError (Text "County doesn't match filename"); PrintRow row]) ++
     (if decide (county = title county) then []
      else [PrintError (Text "Use title case for the county"); PrintRow row]),
     Return tt)
  /\ (PrintError (Text "County doesn't match filename") ∈ output (verifyCounty self row)
      <-> title county ≠ fc)
  /\ (PrintError (Text "Use title case for the county") ∈ output (verifyCounty self row)
      <-> county ≠ title county).
Proof.
  intros Hc Hfc.
  split; [exact (verifyCounty_run self row county fc Hc Hfc)|].
  split; [exact (mismatch_printed self row county fc Hc Hfc)|].
  rewrite (verifyCounty_run self row county fc Hc Hfc). unfold output; simpl.
  destruct (decide (title county = fc));
    destruct (decide (county = title county)); simpl;
    rewrite ?elem_of_cons, ?elem_of_nil; split; try done; try tauto;
    intros Hl; repeat destruct Hl as [Hl|Hl]; try done; congruence.
Qed.

Lemma verifyCounty_findings_witness :
  let row := mkRow "baker" "1" "President" "" "DEM" "Jane Roe" "10" in
  verifyCounty hood_river row =
    ([PrintError (Text "County doesn't match filename"); PrintRow row;
      PrintError (Text "Use title case for the county"); PrintRow row], Return tt).
Proof.
  intros row.
  exact (proj1 (verifyCounty_findings hood_river row "baker" "Hood River" eq_refl eq_refl)).
Defined.

(** ** The district check *)

Lemma tolower_x (c : ascii) :
  PyStr.tolower c = "x"%char -> c = "x"%char \/ c = "X"%char.
Proof.
  destruct c as [[] [] [] [] [] [] [] []]; vm_compute; intros Hc;
    first [discriminate Hc | by left | by right].
Qed.

Lemma lower_x (s : string) : PyStr.lower s = "x" <-> s = "x" \/ s = "X".
Proof.
  split; [|by intros [-> | ->]].
  destruct s as [|c [|d t]]; simpl; [done| |done].
  intros [= Hc]. by destruct (tolower_x c Hc) as [-> | ->]; [left|right].
Qed.

(** C8. For an office of {U.S. House, State Senate, State House}: an
    empty district prints "Office '...' requires a district"; the district
    [x] or [X] prints nothing in a file of state [ms] and "District must
    be an integer" in a file of any other state; any other district
    prints "District must be an integer" exactly when [int] rejects it.
    For every other office nothing is printed, whatever the district.
    [int] is Python's, whatever it accepts. *)
Theorem verifyDistrict_findings `{PyLib} (self : Verifier) (row : Row) (office : string) :
  row !! "office" = Some office ->
  (office ∉ officesWithDistricts -> verifyDistrict self row = ([], Return tt)) /\
  (office ∈ officesWithDistricts ->
   forall district, row !! "district" = Some district ->
     (district = "" ->
      verifyDistrict self row =
        ([PrintError (Text ("Office '" +:+ office +:+ "' requires a district"));
          PrintRow row], Return tt)) /\
     (district = "x" \/ district = "X" ->
      forall state, filenameState self = Some state ->
        (state = "ms" -> verifyDistrict self row = ([], Return tt)) /\
        (state ≠ "ms" ->
         verifyDistrict self row =
           ([PrintError (Text "District must be an integer"); PrintRow row], Return tt))) /\
     (district ≠ "" -> district ≠ "x" -> district ≠ "X" ->
        (int district = None ->
         verifyDistrict self row =
           ([PrintError (Text "District must be an integer"); PrintRow row], Return tt)) /\
        (forall n, int district = Some n ->
         verifyDistrict self row = ([], Return tt)))).
Proof.
  intros Ho. assert (Hne : row ≠ ∅) by (by eapply row_nonempty).
  unfold verifyDistrict. rewrite (getitem_Some _ _ _ Ho), bind_ret_l.
  split.
  { intros Hin. by rewrite bool_decide_eq_false_2. }
  intros Hin district Hd.
  rewrite (bool_decide_eq_true_2 _ Hin), (getitem_Some _ _ _ Hd), bind_ret_l.
  rewrite !eqb_decide. split; [|split].
  - intros ->. by rewrite bool_decide_eq_true_2, bind_ret_l, printError_row.
  - intros Hx state Hst.
    rewrite bool_decide_eq_false_2 by (by destruct Hx as [-> | ->]).
    rewrite (bool_decide_eq_true_2 (PyStr.lower district = "x"))
      by (by apply lower_x).
    unfold getattr. rewrite Hst, bind_ret_l, eqb_decide. split.
    + intros ->. by rewrite bool_decide_eq_true_2.
    + intros Hms. by rewrite bool_decide_eq_false_2, printError_row.
  - intros Hnon Hx HX.
    rewrite bool_decide_eq_false_2 by done.
    rewrite (bool_decide_eq_false_2 (PyStr.lower district = "x"))
      by (rewrite lower_x; tauto).
    unfold verifyInteger. split.
    + intros ->. simpl. by rewrite printError_row.
    + by intros n ->.
Qed.

Lemma verifyDistrict_findings_witness :
  let house := mkRow "Hinds" "1" "State House" "X" "DEM" "Jane Roe" "10" in
  let senate := mkRow "Hood River" "1" "State Senate" "" "DEM" "Jane Roe" "10" in
  let governor := mkRow "Hood River" "1" "Governor" "north" "DEM" "Jane Roe" "10" in
  let fifth := mkRow "Hood River" "1" "U.S. House" "5" "DEM" "Jane Roe" "10" in
  let north := mkRow "Hood River" "1" "U.S. House" "north" "DEM" "Jane Roe" "10" in
  verifyDistrict hood_river fifth = ([], Return tt) /\
  verifyDistrict hood_river north =
    ([PrintError (Text "District must be an integer"); PrintRow north], Return tt) /\
  verifyDistrict hinds house = ([], Return tt) /\
  verifyDistrict hood_river house =
    ([PrintError (Text "District must be an integer"); PrintRow house], Return tt) /\
  verifyDistrict hood_river senate =
    ([PrintError (Text "Office 'State Senate' requires a district"); PrintRow senate],
     Return tt) /\
  verifyDistrict hood_river governor = ([], Return tt).
Proof.
  intros house senate governor fifth north.
  assert (Hin : forall o, bool_decide (o ∈ officesWithDistricts) = true ->
                          o ∈ officesWithDistricts)
    by (intros o; apply bool_decide_eq_true_1).
  assert (Hnin : forall o, bool_decide (o ∈ officesWithDistricts) = false ->
                           o ∉ officesWithDistricts)
    by (intros o; apply bool_decide_eq_false_1).
  split; [|split; [|split; [|split; [|split]]]].
  - refine (proj2 (proj2 (proj2 (proj2 (verifyDistrict_findings hood_river fifth
      "U.S. House" eq_refl) (Hin "U.S. House" eq_refl) "5" eq_refl)) _ _ _) 5%Z eq_refl);
      discriminate.
  - refine (proj1 (proj2 (proj2 (proj2 (verifyDistrict_findings hood_river north
      "U.S. House" eq_refl) (Hin "U.S. House" eq_refl) "north" eq_refl)) _ _ _) eq_refl);
      discriminate.
  - refine (proj1 (proj1 (proj2 (proj2 (verifyDistrict_findings hinds house "State House"
      eq_refl) (Hin "State House" eq_refl) "X" eq_refl)) (or_intror eq_refl) "ms" eq_refl) eq_refl).
  - refine (proj2 (proj1 (proj2 (proj2 (verifyDistrict_findings hood_river house
      "State House" eq_refl) (Hin "State House" eq_refl) "X" eq_refl)) (or_intror eq_refl) "or"
      eq_refl) _). discriminate.
  - refine (proj1 (proj2 (verifyDistrict_findings hood_river senate "State Senate"
      eq_refl) (Hin "State Senate" eq_refl) "" eq_refl) eq_refl).
  - refine (proj1 (verifyDistrict_findings hood_river governor "Governor" eq_refl)
      (Hnin "Governor" eq_refl)).
Defined.

(** ** The candidate check *)

Lemma elem_of_normalizedPseudocandidates (npc : string) :
  npc ∈ normalizedPseudocandidates <->
  npc = "writein" \/ npc = "undervotes" \/ npc = "overvotes" \/ npc = "total".
Proof.
  unfold normalizedPseudocandidates.
  rewrite elem_of_list_to_set, !elem_of_cons, elem_of_nil. tauto.
Qed.

Lemma normalizedPseudocandidates_short (npc : string) :
  npc ∈ normalizedPseudocandidates -> length (chars npc) < 200.
Proof.
  intros [-> | [-> | [-> | ->]]]%elem_of_normalizedPseudocandidates; simpl; lia.
Qed.

Lemma longest_match_size (x npc : string) :
  length (chars npc) < 200 ->
  Difflib.size (longest_match x npc) = Difflib.lcs_length (chars x) (chars npc).
Proof. intros Hlen. unfold longest_match. by apply find_longest_match_size. Qed.

(** The loop prints one finding if some token of the list matches, and
    nothing otherwise. *)
Lemma compareTokens_run (candidate normalizedCandidate : string) (row : Row) npcs :
  compareTokens candidate normalizedCandidate row npcs =
    if existsb (fun npc => 4 <? Difflib.size (longest_match normalizedCandidate npc)) npcs
    then printError (Text ("Misspelled pseudocandidate: '" +:+ candidate +:+ "'")) (Some row)
    else ret tt.
Proof.
  induction npcs as [|npc rest IH]; simpl; [done|].
  by destruct (4 <? Difflib.size (longest_match normalizedCandidate npc)).
Qed.

(** The order in which the tokens are tried does not change what the
    loop prints. *)
Lemma compareTokens_order (candidate normalizedCandidate : string) (row : Row) npcs npcs' :
  npcs ≡ₚ npcs' ->
  compareTokens candidate normalizedCandidate row npcs =
  compareTokens candidate normalizedCandidate row npcs'.
Proof.
  intros Hperm. rewrite !compareTokens_run.
  set (p := fun npc => 4 <? Difflib.size (longest_match normalizedCandidate npc)).
  assert (Heq : existsb p npcs = existsb p npcs'); [|by rewrite Heq].
  apply eq_true_iff_eq. rewrite !existsb_exists.
  split; intros (npc & Hin & Hp); exists npc; split; try done;
    apply list_elem_of_In; apply list_elem_of_In in Hin;
    [by rewrite <- Hperm|by rewrite Hperm].
Qed.

Lemma some_token_matches (x : string) :
  existsb (fun npc => 4 <? Difflib.size (longest_match x npc))
          (elements normalizedPseudocandidates) = true <->
  exists npc, npc ∈ normalizedPseudocandidates /\
              4 < Difflib.lcs_length (chars x) (chars npc).
Proof.
  rewrite existsb_exists. split.
  - intros (npc & Hin & Hlt%Nat.ltb_lt).
    apply (proj2 (list_elem_of_In _ npc)) in Hin.
    apply (proj1 (elem_of_elements normalizedPseudocandidates npc)) in Hin.
    exists npc. split; [exact Hin|].
    by rewrite <- longest_match_size by (by apply normalizedPseudocandidates_short).
  - intros (npc & Hin & Hlt). exists npc. split.
    + apply (proj1 (list_elem_of_In _ npc)).
      exact (proj2 (elem_of_elements normalizedPseudocandidates npc) Hin).
    + apply Nat.ltb_lt.
      by rewrite longest_match_size by (by apply normalizedPseudocandidates_short).
Qed.

(** C5. A candidate that is one of the four reserved literals prints
    nothing.  Any other candidate prints one "Misspelled pseudocandidate"
    finding when its normalized form is a normalized reserved token or
    shares a block of more than 4 characters with one, and prints nothing
    when neither holds; in every case there is at most one finding. *)
Theorem verifyCandidate_findings (self : Verifier) (row : Row) (candidate : string) :
  row !! "candidate" = Some candidate ->
  let misspelled :=
    normalize candidate ∈ normalizedPseudocandidates \/
    exists npc, npc ∈ normalizedPseudocandidates /\
                4 < Difflib.lcs_length (chars (normalize candidate)) (chars npc) in
  (candidate ∈ pseudocandidates -> verifyCandidate self row = ([], Return tt)) /\
  (candidate ∉ pseudocandidates -> misspelled ->
   verifyCandidate self row =
     ([PrintError (Text ("Misspelled pseudocandidate: '" +:+ candidate +:+ "'"));
       PrintRow row], Return tt)) /\
  (candidate ∉ pseudocandidates -> ~ misspelled ->
   verifyCandidate self row = ([], Return tt)) /\
  length (findings (output (verifyCandidate self row))) ≤ 1.
Proof.
  intros Hc misspelled. assert (Hne : row ≠ ∅) by (by eapply row_nonempty).
  unfold verifyCandidate. rewrite (getitem_Some _ _ _ Hc), bind_ret_l.
  rewrite compareTokens_run, !printError_row by done.
  split; [|split; [|split]].
  - intros Hin. by rewrite bool_decide_eq_true_2.
  - intros Hnin [Hnorm|Hfuzzy]; rewrite bool_decide_eq_false_2 by done; simpl.
    + by rewrite bool_decide_eq_true_2.
    + apply some_token_matches in Hfuzzy. rewrite Hfuzzy.
      by destruct (bool_decide _).
  - intros Hnin Hnot. rewrite bool_decide_eq_false_2 by done; simpl.
    rewrite bool_decide_eq_false_2 by (intros ?; apply Hnot; by left).
    destruct (existsb _ _) eqn:Hex; [|done].
    apply some_token_matches in Hex. destruct Hnot. by right.
  - destruct (bool_decide (candidate ∈ pseudocandidates)); simpl; [lia|].
    destruct (bool_decide _); simpl; [lia|].
    destruct (existsb _ _); simpl; lia.
Qed.

Lemma verifyCandidate_findings_witness :
  let misspelt := mkRow "Hood River" "1" "President" "" "" "Writein" "3" in
  let total := mkRow "Hood River" "1" "President" "" "" "Total" "120" in
  verifyCandidate hood_river misspelt =
    ([PrintError (Text "Misspelled pseudocandidate: 'Writein'"); PrintRow misspelt],
     Return tt) /\
  verifyCandidate hood_river total = ([], Return tt).
Proof.
  intros misspelt total. split.
  - refine (proj1 (proj2 (verifyCandidate_findings hood_river misspelt "Writein" eq_refl))
                  _ (or_introl _)).
    + apply (bool_decide_eq_false_1 _). vm_compute. reflexivity.
    + apply (bool_decide_eq_true_1 _). vm_compute. reflexivity.
  - refine (proj1 (verifyCandidate_findings hood_river total "Total" eq_refl) _).
    apply (bool_decide_eq_true_1 _). vm_compute. reflexivity.
Defined.

(** [verifyCandidate] as one test on the candidate. *)
Lemma verifyCandidate_run (self : Verifier) (row : Row) (candidate : string) :
  row !! "candidate" = Some candidate ->
  verifyCandidate self row =
    if negb (bool_decide (candidate ∈ pseudocandidates)) &&
       (bool_decide (normalize candidate ∈ normalizedPseudocandidates) ||
        existsb (fun npc => 4 <? Difflib.size (longest_match (normalize candidate) npc))
                (elements normalizedPseudocandidates))
    then ([PrintError (Text ("Misspelled pseudocandidate: '" +:+ candidate +:+ "'"));
           PrintRow row], Return tt)
    else ([], Return tt).
Proof.
  intros Hc. assert (Hne : row ≠ ∅) by (by eapply row_nonempty).
  unfold verifyCandidate. rewrite (getitem_Some _ _ _ Hc), bind_ret_l.
  rewrite compareTokens_run, !printError_row by exact Hne.
  destruct (bool_decide (candidate ∈ pseudocandidates)); simpl; [reflexivity|].
  destruct (bool_decide _); simpl; [reflexivity|].
  destruct (existsb _ _); reflexivity.
Qed.

(** ** The fuzzy matcher *)

(** C6. The size of the match that the matcher returns for a candidate
    [x] and a token [npc] is a natural number, the length of the longest
    block of consecutive characters that [x] and [npc] share (no common
    block is longer, and one of that size exists), for every [npc] of
    fewer than 200 characters, which covers the four normalized reserved
    tokens, the only second arguments the script passes.  "John Smith",
    normalized, shares at most 4 consecutive characters with each token,
    and a row with that candidate gets no candidate finding. *)
Theorem longest_match_is_longest_common_substring :
  (forall x npc : string, length (chars npc) < 200 ->
     Difflib.is_lcs_length (chars x) (chars npc) (Difflib.size (longest_match x npc)) /\
     Difflib.size (longest_match x npc) = Difflib.lcs_length (chars x) (chars npc)) /\
  (forall x npc : string, npc ∈ normalizedPseudocandidates ->
     Difflib.size (longest_match x npc) = Difflib.lcs_length (chars x) (chars npc)) /\
  (forall npc : string, npc ∈ normalizedPseudocandidates ->
     Difflib.size (longest_match (normalize "John Smith") npc) ≤ 4) /\
  (forall (self : Verifier) (row : Row), row !! "candidate" = Some "John Smith" ->
     verifyCandidate self row = ([], Return tt)).
Proof.
  split; [|split; [|split]].
  - intros x npc Hlen. split; [|by apply longest_match_size].
    unfold longest_match. by apply find_longest_match_is_lcs.
  - intros x npc Hin. apply longest_match_size.
    by apply normalizedPseudocandidates_short.
  - intros npc [-> | [-> | [-> | ->]]]%elem_of_normalizedPseudocandidates;
      vm_compute; lia.
  - intros self row Hc. rewrite (verifyCandidate_run self row _ Hc).
    match goal with
    | |- (if ?c then _ else _) = _ =>
        replace c with false by (vm_compute; reflexivity)
    end.
    reflexivity.
Qed.

Lemma longest_match_is_longest_common_substring_witness :
  Difflib.size (longest_match "overvote" "overvotes") = 8 /\
  Difflib.size (longest_match "johnsmith" "writein") ≤ 4 /\
  verifyCandidate hood_river (mkRow "Hood River" "1" "Governor" "" "DEM" "John Smith" "7")
    = ([], Return tt).
Proof.
  pose proof longest_match_is_longest_common_substring as (Hlcs & _ & Hjohn & Hrow).
  split; [|split].
  - destruct (Hlcs "overvote" "overvotes") as [_ ->]; [simpl; lia|].
    vm_compute. reflexivity.
  - apply (Hjohn "writein").
    apply (bool_decide_eq_true_1 _). vm_compute. reflexivity.
  - apply Hrow. reflexivity.
Defined.

(** ** The party check *)

Lemma Verifier_verifyParty_run (self : Verifier) (row : Row) (candidate party : string) :
  row !! "candidate" = Some candidate -> row !! "party" = Some party ->
  Verifier_verifyParty self row =
    if negb (bool_decide (candidate ∈ pseudocandidates)) && bool_decide (party = "")
    then ([PrintError (Text "Party missing"); PrintRow row], Return tt)
    else ([], Return tt).
Proof.
  intros Hc Hp. assert (Hne : row ≠ ∅) by (by eapply row_nonempty).
  unfold Verifier_verifyParty.
  rewrite (getitem_Some _ _ _ Hc), bind_ret_l.
  destruct (bool_decide (candidate ∈ pseudocandidates)); simpl; [reflexivity|].
  rewrite (getitem_Some _ _ _ Hp), bind_ret_l, eqb_decide, printError_row by exact Hne.
  reflexivity.
Qed.

Lemma PrimaryPrecinctVerifier_verifyParty_run (self : Verifier) (row : Row) (party : string) :
  row !! "party" = Some party ->
  PrimaryPrecinctVerifier_verifyParty self row =
    if bool_decide (party = "")
    then ([PrintError (Text "Primary results must include a party for every row");
           PrintRow row], Return tt)
    else ([], Return tt).
Proof.
  intros Hp. assert (Hne : row ≠ ∅) by (by eapply row_nonempty).
  unfold PrimaryPrecinctVerifier_verifyParty.
  rewrite (getitem_Some _ _ _ Hp), bind_ret_l, eqb_decide, printError_row by exact Hne.
  reflexivity.
Qed.

(** Only [PrimaryPrecinctVerifier] overrides [verifyParty]. *)
Lemma verifyParty_inherited (self : Verifier) (row : Row) :
  class_of self ≠ PrimaryPrecinctVerifier ->
  verifyParty self row = Verifier_verifyParty self row.
Proof. unfold verifyParty. by destruct (class_of self). Qed.

(** In a primary precinct file every record without a party is reported,
    pseudocandidate or not. *)
Lemma primary_precinct_requires_party (self : Verifier) (row : Row) :
  class_of self = PrimaryPrecinctVerifier -> row !! "party" = Some "" ->
  verifyParty self row =
    ([PrintError (Text "Primary results must include a party for every row");
      PrintRow row], Return tt).
Proof.
  intros Hcls Hp. unfold verifyParty. rewrite Hcls.
  by rewrite (PrimaryPrecinctVerifier_verifyParty_run self row "" Hp).
Qed.

(** In a primary county file the inherited rule applies: a pseudocandidate
    without a party is not reported. *)
Lemma primary_county_exempts_pseudocandidates (self : Verifier) (row : Row) candidate :
  class_of self = PrimaryVerifier ->
  row !! "candidate" = Some candidate -> candidate ∈ pseudocandidates ->
  verifyParty self row = ([], Return tt).
Proof.
  intros Hcls Hc Hin. unfold verifyParty, Verifier_verifyParty. rewrite Hcls.
  by rewrite (getitem_Some _ _ _ Hc), bind_ret_l, bool_decide_eq_true_2.
Qed.

(** C3. The selector gives a primary county file the class
    [PrimaryVerifier] and a primary precinct file the class
    [PrimaryPrecinctVerifier].  Run on the same record, a [Total] line with
    an empty party, the precinct file reports "Primary results must
    include a party for every row" and the county file reports nothing:
    [PrimaryVerifier] inherits the rule that exempts pseudocandidates. *)
Theorem primary_county_file_exempts_total :
  __new__ primary_county_path = Some PrimaryVerifier /\
  __new__ primary_precinct_path = Some PrimaryPrecinctVerifier /\
  main primary_files [primary_county_path] =
    ([PrintPath primary_county_path], Return tt) /\
  main primary_files [primary_precinct_path] =
    ([PrintPath primary_precinct_path;
      PrintError (Text "Primary results must include a party for every row");
      PrintRow total_row], Return tt).
Proof. repeat split; vm_compute; reflexivity. Qed.

(** C10. In every class but [PrimaryPrecinctVerifier], a record whose
    candidate is not one of the four reserved literals, whose normalized
    candidate is a normalized reserved token and whose party is empty gets
    both findings: the candidate check prints "Misspelled
    pseudocandidate" and the party check prints "Party missing".  When the
    office of the record is a recognized one and the county and district
    checks end normally, the scan of the record prints both, in that
    order, after the lines of those two checks. *)
Theorem misspelled_pseudocandidate_without_party `{PyLib}
    (self : Verifier) (row : Row) (candidate : string) :
  class_of self ≠ PrimaryPrecinctVerifier ->
  row !! "candidate" = Some candidate ->
  row !! "party" = Some "" ->
  candidate ∉ pseudocandidates ->
  normalize candidate ∈ normalizedPseudocandidates ->
  verifyCandidate self row =
    ([PrintError (Text ("Misspelled pseudocandidate: '" +:+ candidate +:+ "'"));
      PrintRow row], Return tt) /\
  verifyParty self row = ([PrintError (Text "Party missing"); PrintRow row], Return tt) /\
  (forall office, row !! "office" = Some office -> office ∈ validOffices ->
   outcome (verifyCounty self row) = Return tt ->
   outcome (verifyDistrict self row) = Return tt ->
   verifyRow self row =
     (output (verifyCounty self row) ++ output (verifyDistrict self row) ++
      [PrintError (Text ("Misspelled pseudocandidate: '" +:+ candidate +:+ "'"));
       PrintRow row; PrintError (Text "Party missing"); PrintRow row], Return tt)).
Proof.
  intros Hcls Hc Hp Hnin Hnorm.
  assert (Hcand : verifyCandidate self row =
    ([PrintError (Text ("Misspelled pseudocandidate: '" +:+ candidate +:+ "'"));
      PrintRow row], Return tt)).
  { rewrite (verifyCandidate_run self row candidate Hc).
    by rewrite (bool_decide_eq_false_2 _ Hnin), (bool_decide_eq_true_2 _ Hnorm). }
  assert (Hparty : verifyParty self row =
    ([PrintError (Text "Party missing"); PrintRow row], Return tt)).
  { rewrite verifyParty_inherited by exact Hcls.
    rewrite (Verifier_verifyParty_run self row candidate "" Hc Hp).
    by rewrite (bool_decide_eq_false_2 _ Hnin). }
  split; [exact Hcand|]. split; [exact Hparty|].
  intros office Ho Hvalid Hcounty Hdistrict. unfold verifyRow.
  rewrite (bind_returns _ _ tt Hcounty).
  assert (Hoffice : verifyOffice self row = ret tt).
  { unfold verifyOffice.
    by rewrite (getitem_Some _ _ _ Ho), bind_ret_l, (bool_decide_eq_true_2 _ Hvalid). }
  rewrite Hoffice, bind_ret_l, (bind_returns _ _ tt Hdistrict), Hcand, Hparty.
  reflexivity.
Qed.

Lemma misspelled_pseudocandidate_without_party_witness :
  let row := mkRow "Hood River" "1" "President" "" "" "write in" "3" in
  verifyRow hood_river row =
    ([PrintError (Text "Misspelled pseudocandidate: 'write in'"); PrintRow row;
      PrintError (Text "Party missing"); PrintRow row], Return tt).
Proof.
  intros row.
  refine (proj2 (proj2 (misspelled_pseudocandidate_without_party hood_river row "write in"
    _ eq_refl eq_refl _ _)) "President" eq_refl _ eq_refl eq_refl).
  - discriminate.
  - apply (bool_decide_eq_false_1 _). vm_compute. reflexivity.
  - apply (bool_decide_eq_true_1 _). vm_compute. reflexivity.
  - apply (bool_decide_eq_true_1 _). vm_compute. reflexivity.
Defined.

(** ** The office check *)

Lemma verifyOffice_valid (self : Verifier) (row : Row) (office : string) :
  row !! "office" = Some office -> office ∈ validOffices ->
  verifyOffice self row = ([], Return tt).
Proof.
  intros Ho Hin. unfold verifyOffice.
  by rewrite (getitem_Some _ _ _ Ho), bind_ret_l, (bool_decide_eq_true_2 _ Hin).
Qed.

(** An office outside the nine never reaches [printError]: the attribute
    [self.self] does not exist. *)
Lemma verifyOffice_invalid (self : Verifier) (row : Row) (office : string) :
  row !! "office" = Some office -> office ∉ validOffices ->
  verifyOffice self row = ([], Raise (AttributeError (class_name (class_of self)) "self")).
Proof.
  intros Ho Hnin. unfold verifyOffice.
  by rewrite (getitem_Some _ _ _ Ho), bind_ret_l, (bool_decide_eq_false_2 _ Hnin).
Qed.

(** An exception in one record ends the scan: the records after it are
    not looked at. *)
Lemma verifyRows_raises `{PyLib} (self : Verifier) (row : Row) (rest : list Row) (e : exn) :
  outcome (verifyRow self row) = Raise e ->
  verifyRows self (row :: rest) = (output (verifyRow self row), Raise e).
Proof. intros Hr. simpl. by apply bind_raises. Qed.

Lemma main_raises `{PyLib} (fs : FileSystem) (path : string) (rest : list string) (e : exn) :
  outcome (main_step fs path) = Raise e ->
  main fs (path :: rest) = (output (main_step fs path), Raise e).
Proof. intros Hr. simpl. by apply bind_raises. Qed.

(** C1. On a record whose office is "Mayor" the office check prints no
    finding and raises [AttributeError]; the exception is not caught, so
    the run ends there: the next record of the file, which lacks a party,
    is not reported, and the next file of the batch is not opened. *)
Theorem invalid_office_raises_AttributeError :
  verifyOffice hood_river mayor_row =
    ([], Raise (AttributeError "GeneralPrecinctVerifier" "self")) /\
  findings (output (verifyRow hood_river partyless_row)) = [Text "Party missing"] /\
  main mayor_files [hood_river_path; primary_precinct_path] =
    ([PrintPath hood_river_path], Raise (AttributeError "GeneralPrecinctVerifier" "self")).
Proof. repeat split; vm_compute; reflexivity. Qed.

(** ** The selection of the class *)

(** The rules of [__new__], in their order. *)
Lemma new_first_match (path : string) :
  let filename := PyStr.basename path in
  let has := fun tag => PyStr.contains tag filename = true in
  (has "general" -> has "precinct" -> __new__ path = Some GeneralPrecinctVerifier) /\
  (has "general" -> ~ has "precinct" -> __new__ path = Some GeneralVerifier) /\
  (~ has "general" -> has "primary" -> has "precinct" ->
     __new__ path = Some PrimaryPrecinctVerifier) /\
  (~ has "general" -> has "primary" -> ~ has "precinct" ->
     __new__ path = Some PrimaryVerifier) /\
  (~ has "general" -> ~ has "primary" -> has "special" -> has "precinct" ->
     __new__ path = Some SpecialPrecinctVerifier) /\
  (~ has "general" -> ~ has "primary" -> ~ (has "special" /\ has "precinct") ->
     __new__ path = None).
Proof.
  intros filename has. unfold has, __new__. fold filename.
  destruct (PyStr.contains "general" filename),
           (PyStr.contains "primary" filename),
           (PyStr.contains "special" filename),
           (PyStr.contains "precinct" filename); simpl;
    repeat split; intros; try reflexivity; try congruence; tauto.
Qed.

(** When no rule matches, [Verifier(path)] is [None] and [main] fails on
    [verifier.ready]. *)
Lemma main_step_unrecognized `{PyLib} (fs : FileSystem) (path : string) :
  __new__ path = None ->
  main_step fs path = ([], Raise (AttributeError "NoneType" "ready")).
Proof. intros Hnew. unfold main_step, Verifier_call. by rewrite Hnew. Qed.

(** C4. The tests are ordered and case-sensitive: a name with both
    "primary" and "general" is a general file, and "General" selects
    nothing.  For the county-level special file no rule matches,
    [Verifier(path)] is [None], and [main] does not skip it: it raises
    [AttributeError] on [verifier.ready], printing nothing, and the file
    after it in the batch, which alone yields a finding, is never
    verified. *)
Theorem unrecognized_file_raises_AttributeError :
  __new__ "2016/primary_after_general.csv" = Some GeneralVerifier /\
  __new__ "20161108__or__General__baker__Precinct.csv" = None /\
  __new__ special_county_path = None /\
  main special_files [special_county_path; primary_precinct_path] =
    ([], Raise (AttributeError "NoneType" "ready")) /\
  main special_files [primary_precinct_path] =
    ([PrintPath primary_precinct_path;
      PrintError (Text "Primary results must include a party for every row");
      PrintRow total_row], Return tt).
Proof. repeat split; vm_compute; reflexivity. Qed.

(** ** The schema check *)

Lemma verifyColumns_run (self : Verifier) (names : list string) :
  let invalid : gset string := list_to_set names ∖ validColumns in
  let missing : gset string := requiredColumns ∖ list_to_set names in
  verifyColumns self names =
    ((if decide (invalid = ∅) then [] else [PrintError (InvalidColumns invalid)]) ++
     (if decide (missing = ∅) then [] else [PrintError (MissingColumns missing)]),
     Return (bool_decide (missing = ∅))).
Proof.
  intros invalid missing. unfold verifyColumns. fold invalid missing.
  destruct (decide (invalid = ∅)), (decide (missing = ∅));
    rewrite ?bind_ret_l, ?printError_no_row;
    rewrite ?(bool_decide_eq_true_2 (missing = ∅)), ?(bool_decide_eq_false_2 (missing = ∅))
      by assumption; reflexivity.
Qed.

(** C7. For a file with header [names] and records [rows]: a column
    outside the valid set is reported by one "Invalid columns" finding,
    after which, when no required column is missing, the records are
    scanned as they would be without it; when a required column is
    missing, the output is that finding (if any) and one "Missing
    columns" finding, and nothing else: no record is scanned. *)
Theorem verifyColumns_gate `{PyLib} (fs : FileSystem) (self : Verifier) (path : string)
    (names : list string) (rows : list Row) :
  fs path = Some (RegularFile (mkCsvFile (Some names) rows)) ->
  let invalid : gset string := list_to_set names ∖ validColumns in
  let missing : gset string := requiredColumns ∖ list_to_set names in
  let warning := if decide (invalid = ∅) then []
                 else [PrintError (InvalidColumns invalid)] in
  (missing = ∅ ->
   parseFileAtPath fs self path =
     (warning ++ output (verifyRows self rows), outcome (verifyRows self rows))) /\
  (missing ≠ ∅ ->
   parseFileAtPath fs self path =
     (warning ++ [PrintError (MissingColumns missing)], Return tt) /\
   forall l, l ∈ output (parseFileAtPath fs self path) ->
     l = PrintError (InvalidColumns invalid) \/ l = PrintError (MissingColumns missing)).
Proof.
  intros Hfs invalid missing warning.
  unfold parseFileAtPath. rewrite Hfs. simpl.
  rewrite verifyColumns_run. fold invalid missing warning.
  split.
  - intros Hm. rewrite decide_True, bool_decide_eq_true_2 by exact Hm.
    unfold bind. rewrite app_nil_r. unfold output, outcome.
    by destruct (verifyRows self rows).
  - intros Hm. rewrite decide_False, bool_decide_eq_false_2 by exact Hm.
    split; [by rewrite <- (app_nil_r (warning ++ _)) at 2|].
    intros l. unfold output, bind; simpl. rewrite app_nil_r, elem_of_app.
    intros [Hl|Hl%list_elem_of_singleton]; [|by right].
    unfold warning in Hl. destruct (decide (invalid = ∅)).
    + by apply elem_of_nil in Hl.
    + apply list_elem_of_singleton in Hl. by left.
Qed.

Lemma verifyColumns_gate_witness :
  parseFileAtPath turnout_files hood_river hood_river_path =
    ([PrintError (InvalidColumns (list_to_set turnout_header ∖ validColumns));
      PrintError (Text "Party missing"); PrintRow turnout_row], Return tt) /\
  parseFileAtPath districtless_files hood_river hood_river_path =
    ([PrintError (MissingColumns (requiredColumns ∖ list_to_set districtless_header))],
     Return tt).
Proof.
  split.
  - refine (proj1 (verifyColumns_gate turnout_files hood_river hood_river_path
      turnout_header [turnout_row] eq_refl) _).
    apply (bool_decide_eq_true_1 _). vm_compute. reflexivity.
  - refine (proj1 (proj2 (verifyColumns_gate districtless_files hood_river hood_river_path
      districtless_header _ eq_refl) _)).
    apply (bool_decide_eq_false_1 _). vm_compute. reflexivity.
Defined.

(** ** The metadata of the file name *)

Lemma deriveStateCountyFromFilename_five `{PyLib} (filename c0 c1 c2 c3 c4 : string) :
  PyStr.split__ filename = [c0; c1; c2; c3; c4] ->
  deriveStateCountyFromFilename filename =
    Pair c1 (title (PyStr.replace "_" " " c3)).
Proof. unfold deriveStateCountyFromFilename. by intros ->. Qed.

(** [__init__] never raises: whatever happens in its [try] is printed. *)
Lemma init_returns `{PyLib} (fs : FileSystem) (c : Class) (path : string) :
  exists self, outcome (__init__ fs c path) = Return self.
Proof.
  unfold __init__.
  destruct (pathSanityCheck fs path) as [out [[]|e]]; [|by eexists].
  destruct (unpack2 _) as [out' [[state county]|e]]; by eexists.
Qed.




(** An instance is ready only when the file name had 5 components; its
    state is the second of them and its county the fourth, with
    underscores turned into blanks and title-cased. *)
Lemma init_ready `{PyLib} (fs : FileSystem) (c : Class) (path : string) (self : Verifier) :
  outcome (__init__ fs c path) = Return self -> ready self = true ->
  filename self = Some (PyStr.basename path) /\
  exists c0 c1 c2 c3 c4,
    PyStr.split__ (PyStr.basename path) = [c0; c1; c2; c3; c4] /\
    filenameState self = Some c1 /\
    filenameCounty self = Some (title (PyStr.replace "_" " " c3)).
Proof.
  unfold __init__.
  destruct (pathSanityCheck fs path) as [out [[]|e]];
    [|unfold outcome; simpl; by intros [= <-]].
  unfold deriveStateCountyFromFilename.
  destruct (PyStr.split__ (PyStr.basename path)) as [|c0 [|c1 [|c2 [|c3 [|c4 [|? ?]]]]]];
    unfold outcome; simpl; intros [= <-]; simpl; try discriminate.
  intros _. split; [reflexivity|]. by exists c0, c1, c2, c3, c4.
Qed.

(** The two sample instances are what the constructor builds. *)
Lemma sample_instances :
  Verifier_call sample_files hood_river_path =
    ([PrintPath hood_river_path], Return (Some hood_river)) /\
  Verifier_call sample_files (path hinds) =
    ([PrintPath (path hinds)], Return (Some hinds)).
Proof. split; vm_compute; reflexivity. Qed.

(** ** The purge of popular elements *)

(** C6.  Not every pair of strings: against a second string of 200
    characters [autojunk] sets in.  Against 200 times the letter x every
    position of x is purged from [b2j], and the matcher finds nothing in
    "yx", which shares one letter with it.  The script never compares
    against such a string. *)
Lemma autojunk_from_200 :
  let xs := string_of_list_ascii (repeat "x"%char 200) in
  Difflib.size (longest_match "yx" xs) = 0 /\
  Difflib.lcs_length (chars "yx") (chars xs) = 1.
Proof. split; vm_compute; reflexivity. Qed.

(** * Further properties of the script *)

(** ** Splitting the file name *)

Lemma join_cons (h : string) (l : list string) :
  l ≠ [] -> join__ (h :: l) = h +:+ "__" +:+ join__ l.
Proof. by destruct l. Qed.

Lemma join_String (c : ascii) (h : string) (tl : list string) :
  join__ (String c h :: tl) = String c (join__ (h :: tl)).
Proof. by destruct tl. Qed.

Lemma join_of_components (n : nat) : forall s,
  String.length s ≤ n -> PyStr.split__ s ≠ [] /\ join__ (PyStr.split__ s) = s.
Proof.
  induction n as [|n IH]; intros s Hlen.
  - destruct s; [by split|simpl in Hlen; lia].
  - destruct s as [|c [|d rest]]; [by split..|].
    assert (Ht : String.length (String d rest) ≤ n) by (simpl in *; lia).
    assert (Hrest : String.length rest ≤ n) by (simpl in *; lia).
    change (PyStr.split__ (String c (String d rest))) with
      (if Ascii.eqb c "_" && Ascii.eqb d "_" then EmptyString :: PyStr.split__ rest
       else match PyStr.split__ (String d rest) with
            | h :: tl => String c h :: tl
            | [] => [String c EmptyString]
            end).
    destruct (Ascii.eqb c "_" && Ascii.eqb d "_") eqn:Hsep.
    + apply andb_true_iff in Hsep as [->%Ascii.eqb_eq ->%Ascii.eqb_eq].
      destruct (IH rest Hrest) as [Hne Hjoin]. split; [done|].
      by rewrite join_cons, Hjoin.
    + destruct (IH (String d rest) Ht) as [Hne Hjoin].
      destruct (PyStr.split__ (String d rest)) as [|h tl]; [done|].
      split; [done|]. by rewrite join_String, Hjoin.
Qed.

(** X2. Splitting a name on the double underscore always yields at least
    one component, and joining the components with the double underscore
    gives the name back. *)
Theorem split_join (s : string) :
  1 ≤ length (PyStr.split__ s) /\ join__ (PyStr.split__ s) = s.
Proof.
  destruct (join_of_components (String.length s) s (le_n _)) as [Hne Hjoin].
  split; [|exact Hjoin]. destruct (PyStr.split__ s); [done|simpl; lia].
Qed.

(** X3. A ready instance comes from a regular file whose name splits
    into exactly five components: the name is the five joined by double
    underscores, the state is the second, verbatim, and the county is the
    title case of the fourth with its underscores replaced by blanks. *)
Theorem ready_instance_metadata `{PyLib}
    (fs : FileSystem) (c : Class) (path : string) (self : Verifier) :
  outcome (__init__ fs c path) = Return self ->
  ready self = true ->
  filename self = Some (PyStr.basename path) /\
  (exists content, fs path = Some (RegularFile content)) /\
  exists c0 state c2 county c4,
    PyStr.split__ (PyStr.basename path) = [c0; state; c2; county; c4] /\
    PyStr.basename path = c0 +:+ "__" +:+ state +:+ "__" +:+ c2 +:+ "__"
                             +:+ county +:+ "__" +:+ c4 /\
    filenameState self = Some state /\
    filenameCounty self = Some (title (PyStr.replace "_" " " county)).
Proof.
  intros Hinit Hready.
  destruct (init_ready fs c path self Hinit Hready)
    as (Hname & c0 & c1 & c2 & c3 & c4 & Hsplit & Hstate & Hcounty).
  split; [exact Hname|]. split.
  - revert Hinit Hready. unfold __init__, pathSanityCheck.
    destruct (fs path) as [[|content]|].
    + unfold outcome; simpl. intros [= <-]. discriminate.
    + intros _ _. by exists content.
    + unfold outcome; simpl. intros [= <-]. discriminate.
  - exists c0, c1, c2, c3, c4.
    pose proof (join_of_components _ (PyStr.basename path) (le_n _)) as [_ Hjoin].
    rewrite Hsplit in Hjoin. simpl in Hjoin. by rewrite Hjoin.
Qed.

Lemma ready_instance_metadata_witness :
  exists c0 state c2 county c4,
    PyStr.split__ (PyStr.basename hood_river_path) = [c0; state; c2; county; c4] /\
    PyStr.basename hood_river_path = c0 +:+ "__" +:+ state +:+ "__" +:+ c2 +:+ "__"
                                        +:+ county +:+ "__" +:+ c4 /\
    filenameState hood_river = Some state /\
    filenameCounty hood_river = Some (title (PyStr.replace "_" " " county)).
Proof.
  refine (proj2 (proj2 (ready_instance_metadata sample_files GeneralPrecinctVerifier
            hood_river_path hood_river _ eq_refl))).
  vm_compute. reflexivity.
Defined.

(** ** The scan of the records *)

Lemma verifyRows_cons_returns `{PyLib} (self : Verifier) (row : Row) (rest : list Row) :
  outcome (verifyRow self row) = Return tt ->
  verifyRows self (row :: rest) =
    (output (verifyRow self row) ++ output (verifyRows self rest),
     outcome (verifyRows self rest)).
Proof.
  intros Hr.
  exact (bind_returns (verifyRow self row) (fun _ => verifyRows self rest) tt Hr).
Qed.

(** X4. The records are checked one after the other and independently:
    while no record raises, the output of the scan is the outputs of the
    records in order; the first record that raises ends the scan, with
    its own output last and nothing from the records after it. *)
Theorem verifyRows_scan `{PyLib} (self : Verifier) (before after : list Row) :
  (forall row, row ∈ before -> outcome (verifyRow self row) = Return tt) ->
  verifyRows self before =
    (concat (map (fun row => output (verifyRow self row)) before), Return tt) /\
  (forall row e, outcome (verifyRow self row) = Raise e ->
     verifyRows self (before ++ row :: after) =
       (concat (map (fun row => output (verifyRow self row)) before)
          ++ output (verifyRow self row), Raise e)).
Proof.
  induction before as [|r before IH]; intros Hall.
  - split; [reflexivity|]. intros row e He. by apply verifyRows_raises.
  - assert (Hr : outcome (verifyRow self r) = Return tt) by (apply Hall; left).
    destruct IH as [IH1 IH2]; [intros row Hin; apply Hall; by right|].
    split.
    + rewrite (verifyRows_cons_returns _ _ _ Hr), IH1. reflexivity.
    + intros row e He. simpl app.
      rewrite (verifyRows_cons_returns _ _ _ Hr), (IH2 row e He).
      unfold output, outcome; simpl. by rewrite app_assoc.
Qed.

Lemma verifyRows_scan_witness :
  verifyRows hood_river [partyless_row; mayor_row; partyless_row] =
    ([PrintError (Text "Party missing"); PrintRow partyless_row],
     Raise (AttributeError "GeneralPrecinctVerifier" "self")).
Proof.
  refine (proj2 (verifyRows_scan hood_river [partyless_row] [partyless_row] _)
                mayor_row _ eq_refl).
  intros row ->%list_elem_of_singleton. reflexivity.
Defined.

(** What the five checks need from a record and from the instance. *)
Lemma verifyCounty_returns `{PyLib} (self : Verifier) (row : Row) county fc :
  row !! "county" = Some county -> filenameCounty self = Some fc ->
  outcome (verifyCounty self row) = Return tt.
Proof.
  intros Hc Hfc. assert (Hne : row ≠ ∅) by (by eapply row_nonempty).
  unfold verifyCounty, getattr.
  rewrite (getitem_Some _ _ _ Hc), Hfc, !bind_ret_l, !printError_row by exact Hne.
  destruct (negb _), (negb _); reflexivity.
Qed.

Lemma verifyDistrict_returns `{PyLib} (self : Verifier) (row : Row) office district state :
  row !! "office" = Some office -> row !! "district" = Some district ->
  filenameState self = Some state ->
  outcome (verifyDistrict self row) = Return tt.
Proof.
  intros Ho Hd Hs. assert (Hne : row ≠ ∅) by (by eapply row_nonempty).
  unfold verifyDistrict, getattr.
  rewrite (getitem_Some _ _ _ Ho), Hs, !bind_ret_l.
  destruct (bool_decide _); [|reflexivity].
  rewrite (getitem_Some _ _ _ Hd), !bind_ret_l, !printError_row by exact Hne.
  destruct (String.eqb district ""); [reflexivity|].
  destruct (String.eqb (PyStr.lower district) "x").
  - by destruct (String.eqb state "ms").
  - by destruct (negb _).
Qed.

Lemma verifyCandidate_returns (self : Verifier) (row : Row) candidate :
  row !! "candidate" = Some candidate ->
  outcome (verifyCandidate self row) = Return tt.
Proof.
  intros Hc. rewrite (verifyCandidate_run self row candidate Hc).
  by destruct (_ && _).
Qed.

Lemma verifyParty_returns (self : Verifier) (row : Row) candidate party :
  row !! "candidate" = Some candidate -> row !! "party" = Some party ->
  outcome (verifyParty self row) = Return tt.
Proof.
  intros Hc Hp. unfold verifyParty.
  destruct (class_of self);
    rewrite ?(Verifier_verifyParty_run self row candidate party Hc Hp),
            ?(PrimaryPrecinctVerifier_verifyParty_run self row party Hp);
    by destruct (_ && _) || by destruct (bool_decide _).
Qed.

(** X5. For a ready instance and a record that has the columns the
    checks read, the scan of the record raises exactly when the office is
    not a recognized one.  With a recognized office its output is the
    lines of the county, district, candidate and party checks, in that
    order; otherwise it is the lines of the county check and the
    exception is [AttributeError]. *)
Theorem verifyRow_raises_iff_invalid_office `{PyLib}
    (self : Verifier) (row : Row) (county office district candidate party fc state : string) :
  filenameCounty self = Some fc -> filenameState self = Some state ->
  row !! "county" = Some county -> row !! "office" = Some office ->
  row !! "district" = Some district -> row !! "candidate" = Some candidate ->
  row !! "party" = Some party ->
  (office ∈ validOffices ->
   verifyRow self row =
     (output (verifyCounty self row) ++ output (verifyDistrict self row) ++
      output (verifyCandidate self row) ++ output (verifyParty self row), Return tt)) /\
  (office ∉ validOffices ->
   verifyRow self row =
     (output (verifyCounty self row),
      Raise (AttributeError (class_name (class_of self)) "self"))) /\
  (outcome (verifyRow self row) = Return tt <-> office ∈ validOffices).
Proof.
  intros Hfc Hst Hc Ho Hd Hcand Hp.
  pose proof (verifyCounty_returns self row county fc Hc Hfc) as Hcounty.
  pose proof (verifyDistrict_returns self row office district state Ho Hd Hst) as Hdistrict.
  pose proof (verifyCandidate_returns self row candidate Hcand) as Hcandidate.
  pose proof (verifyParty_returns self row candidate party Hcand Hp) as Hparty.
  assert (Hvalid : office ∈ validOffices ->
    verifyRow self row =
     (output (verifyCounty self row) ++ output (verifyDistrict self row) ++
      output (verifyCandidate self row) ++ output (verifyParty self row), Return tt)).
  { intros Hin. unfold verifyRow.
    rewrite (bind_returns _ _ tt Hcounty), (verifyOffice_valid self row office Ho Hin).
    change (@nil line, Return tt) with (@ret unit tt).
    rewrite bind_ret_l, (bind_returns _ _ tt Hdistrict), (bind_returns _ _ tt Hcandidate).
    rewrite Hparty. reflexivity. }
  assert (Hinvalid : office ∉ validOffices ->
    verifyRow self row =
     (output (verifyCounty self row),
      Raise (AttributeError (class_name (class_of self)) "self"))).
  { intros Hnin. unfold verifyRow.
    rewrite (bind_returns _ _ tt Hcounty), (verifyOffice_invalid self row office Ho Hnin).
    simpl. by rewrite app_nil_r. }
  split; [exact Hvalid|]. split; [exact Hinvalid|].
  destruct (decide (office ∈ validOffices)) as [Hin|Hnin].
  - by rewrite (Hvalid Hin).
  - rewrite (Hinvalid Hnin). unfold outcome; simpl. split; [discriminate|done].
Qed.

Lemma verifyRow_raises_iff_invalid_office_witness :
  verifyRow hood_river mayor_row =
    ([], Raise (AttributeError "GeneralPrecinctVerifier" "self")) /\
  verifyRow hood_river partyless_row =
    ([PrintError (Text "Party missing"); PrintRow partyless_row], Return tt).
Proof.
  split.
  - refine (proj1 (proj2 (verifyRow_raises_iff_invalid_office hood_river mayor_row
      "Hood River" "Mayor" "" "Jane Roe" "NP" "Hood River" "or"
      eq_refl eq_refl eq_refl eq_refl eq_refl eq_refl eq_refl)) _).
    apply (bool_decide_eq_false_1 _). vm_compute. reflexivity.
  - refine (proj1 (verifyRow_raises_iff_invalid_office hood_river partyless_row
      "Hood River" "Governor" "" "John Doe" "" "Hood River" "or"
      eq_refl eq_refl eq_refl eq_refl eq_refl eq_refl eq_refl) _).
    apply (bool_decide_eq_true_1 _). vm_compute. reflexivity.
Defined.

(** ** The header *)

Lemma difference_empty_iff (X Y : gset string) : X ∖ Y = ∅ <-> X ⊆ Y.
Proof.
  split.
  - intros Hd x Hx. destruct (decide (x ∈ Y)) as [|Hn]; [done|].
    assert (Hin : x ∈ X ∖ Y) by (apply elem_of_difference; by split).
    rewrite Hd in Hin. by apply not_elem_of_empty in Hin.
  - intros Hsub. apply leibniz_equiv. intros x. split.
    + intros [Hx Hn]%elem_of_difference. destruct Hn. by apply Hsub.
    + intros Hx. by apply not_elem_of_empty in Hx.
Qed.

(** X6. The schema check answers [True] exactly when every required
    column is declared, and it is silent as well exactly when, moreover,
    every declared column is a valid one.  It looks at the set of the
    declared names only: their order and repetitions do not matter. *)
Theorem verifyColumns_accepts (self : Verifier) (names : list string) :
  (outcome (verifyColumns self names) = Return true <->
   requiredColumns ⊆ list_to_set names) /\
  (verifyColumns self names = ([], Return true) <->
   requiredColumns ⊆ list_to_set names /\
   (list_to_set names : gset string) ⊆ validColumns) /\
  (forall names', (list_to_set names : gset string) = list_to_set names' ->
   verifyColumns self names = verifyColumns self names').
Proof.
  split; [|split].
  - rewrite verifyColumns_run, <- difference_empty_iff. unfold outcome; simpl.
    split.
    + intros [= Hb]. by apply bool_decide_eq_true in Hb.
    + intros Hm. by rewrite bool_decide_eq_true_2.
  - rewrite verifyColumns_run, <- !difference_empty_iff. split.
    + destruct (decide (list_to_set names ∖ validColumns = ∅)) as [Hi|Hi];
        destruct (decide (requiredColumns ∖ list_to_set names = ∅)) as [Hm|Hm];
        simpl; intros [= ?]; by split.
    + intros [Hm Hi]. by rewrite !decide_True, bool_decide_eq_true_2.
  - intros names' Heq. rewrite !verifyColumns_run. by rewrite Heq.
Qed.

(** ** One file of the batch *)

(** X7. A path for which a class is selected but whose instance is not
    ready is skipped: [main] prints what the constructor printed and goes
    on.  That is the case of a path that is no regular file, reported as
    [FileNotFoundError], and of one that lacks the extension [.csv],
    reported as [ValueError]; in both the only line printed is the
    error. *)
Theorem setup_error_skips_file `{PyLib} (fs : FileSystem) (path : string) (c : Class) :
  __new__ path = Some c ->
  (forall self, outcome (__init__ fs c path) = Return self -> ready self = false ->
     main_step fs path = (output (__init__ fs c path), Return tt)) /\
  (fs path = None \/ fs path = Some Directory ->
     main_step fs path =
       ([PrintException (FileNotFoundError ("Can't find file at path " +:+ path))],
        Return tt)) /\
  (forall content, fs path = Some (RegularFile content) ->
     (PyStr.splitext path).2 ≠ ".csv" ->
     main_step fs path =
       ([PrintException (ValueError ("Filename does not end in .csv: " +:+ path))],
        Return tt)).
Proof.
  intros Hnew. unfold main_step, Verifier_call. rewrite Hnew. split; [|split].
  - intros self Hinit Hready.
    destruct (__init__ fs c path) as [out r]. unfold outcome in Hinit; simpl in Hinit.
    subst r. unfold bind, ret, output; simpl. rewrite Hready. simpl.
    by rewrite !app_nil_r.
  - intros Hfs. unfold __init__, pathSanityCheck.
    by destruct Hfs as [-> | ->].
  - intros content Hfs Hext. unfold __init__, pathSanityCheck. rewrite Hfs.
    apply String.eqb_neq in Hext. by rewrite Hext.
Qed.

Lemma setup_error_skips_file_witness :
  main_step odd_files "2016/general" =
    ([PrintException (FileNotFoundError "Can't find file at path 2016/general")],
     Return tt) /\
  main_step odd_files "20161108__or__general__baker__precinct.txt" =
    ([PrintException (ValueError
        "Filename does not end in .csv: 20161108__or__general__baker__precinct.txt")],
     Return tt).
Proof.
  split.
  - refine (proj1 (proj2 (setup_error_skips_file odd_files "2016/general"
      GeneralVerifier eq_refl)) (or_intror eq_refl)).
  - refine (proj2 (proj2 (setup_error_skips_file odd_files
      "20161108__or__general__baker__precinct.txt" GeneralPrecinctVerifier eq_refl))
      _ eq_refl _).
    vm_compute. discriminate.
Defined.

(** X8. For a regular [.csv] file whose name selects a class and splits
    into five components: if the name contains "matrix" the file is not
    opened and only its path is printed; otherwise [main] prints the path
    and then verifies the file with the instance that holds the state and
    county of the name.  In the latter case an empty file, which has no
    header, makes the run end with [TypeError]. *)
Theorem main_step_verifies `{PyLib} (fs : FileSystem) (path : string) (c : Class)
    (content : CsvFile) (c0 c1 c2 c3 c4 : string) :
  __new__ path = Some c ->
  fs path = Some (RegularFile content) ->
  (PyStr.splitext path).2 = ".csv" ->
  PyStr.split__ (PyStr.basename path) = [c0; c1; c2; c3; c4] ->
  let self := mkVerifier c path [] true (Some (PyStr.basename path)) (Some c1)
                (Some (title (PyStr.replace "_" " " c3))) in
  (PyStr.contains "matrix" (PyStr.basename path) = true ->
     main_step fs path = ([PrintPath path], Return tt)) /\
  (PyStr.contains "matrix" (PyStr.basename path) = false ->
     main_step fs path =
       (PrintPath path :: output (parseFileAtPath fs self path),
        outcome (parseFileAtPath fs self path))) /\
  (PyStr.contains "matrix" (PyStr.basename path) = false ->
   fieldnames content = None ->
     main_step fs path =
       ([PrintPath path], Raise (TypeError "'NoneType' object is not iterable"))).
Proof.
  intros Hnew Hfs Hext Hsplit self.
  assert (Hcall : Verifier_call fs path = ([PrintPath path], Return (Some self))).
  { unfold Verifier_call, __init__, pathSanityCheck, deriveStateCountyFromFilename.
    rewrite Hnew, Hfs, Hext, Hsplit. reflexivity. }
  assert (Hrun : PyStr.contains "matrix" (PyStr.basename path) = false ->
     main_step fs path =
       (PrintPath path :: output (parseFileAtPath fs self path),
        outcome (parseFileAtPath fs self path))).
  { intros Hm. unfold main_step. rewrite Hcall. simpl. rewrite Hm. simpl.
    unfold verify; simpl. unfold output, outcome.
    by destruct (parseFileAtPath fs self path). }
  split; [|split].
  - intros Hm. unfold main_step. rewrite Hcall. simpl. by rewrite Hm.
  - exact Hrun.
  - intros Hm Hnone. rewrite (Hrun Hm). unfold parseFileAtPath.
    rewrite Hfs, Hnone. reflexivity.
Qed.

Lemma main_step_verifies_witness :
  main_step odd_files matrix_path = ([PrintPath matrix_path], Return tt) /\
  main_step odd_files empty_path =
    ([PrintPath empty_path], Raise (TypeError "'NoneType' object is not iterable")).
Proof.
  split.
  - refine (proj1 (main_step_verifies odd_files matrix_path GeneralPrecinctVerifier
      _ _ _ _ _ _ eq_refl eq_refl eq_refl eq_refl) eq_refl).
  - refine (proj2 (proj2 (main_step_verifies odd_files empty_path GeneralPrecinctVerifier
      _ _ _ _ _ _ eq_refl eq_refl eq_refl eq_refl)) eq_refl eq_refl).
Defined.

(** ** The batch *)

Lemma main_cons_returns `{PyLib} (fs : FileSystem) (path : string) (rest : list string) :
  outcome (main_step fs path) = Return tt ->
  main fs (path :: rest) =
    (output (main_step fs path) ++ output (main fs rest), outcome (main fs rest)).
Proof.
  intros Hr.
  exact (bind_returns (main_step fs path) (fun _ => main fs rest) tt Hr).
Qed.

(** X9. The files are processed in the order given: while no file
    raises, the output of the batch is the outputs of the files in order;
    the first file that raises ends the batch, and the paths after it are
    not looked at. *)
Theorem main_batch `{PyLib} (fs : FileSystem) (before after : list string) :
  (forall path, path ∈ before -> outcome (main_step fs path) = Return tt) ->
  main fs before =
    (concat (map (fun path => output (main_step fs path)) before), Return tt) /\
  (forall path e, outcome (main_step fs path) = Raise e ->
     main fs (before ++ path :: after) =
       (concat (map (fun path => output (main_step fs path)) before)
          ++ output (main_step fs path), Raise e)).
Proof.
  induction before as [|p before IH]; intros Hall.
  - split; [reflexivity|]. intros path e He. by apply main_raises.
  - assert (Hp : outcome (main_step fs p) = Return tt) by (apply Hall; left).
    destruct IH as [IH1 IH2]; [intros path Hin; apply Hall; by right|].
    split.
    + rewrite (main_cons_returns _ _ _ Hp), IH1. reflexivity.
    + intros path e He. simpl app.
      rewrite (main_cons_returns _ _ _ Hp), (IH2 path e He).
      unfold output, outcome; simpl. by rewrite app_assoc.
Qed.

Lemma main_batch_witness :
  main odd_files [matrix_path; empty_path; matrix_path] =
    ([PrintPath matrix_path; PrintPath empty_path],
     Raise (TypeError "'NoneType' object is not iterable")).
Proof.
  refine (proj2 (main_batch odd_files [matrix_path] [matrix_path] _)
                empty_path _ eq_refl).
  intros path ->%list_elem_of_singleton. reflexivity.
Defined.

(** ** Blocks shared with a token *)

Section blocks.
Import Difflib.
Context {A : Type} `{Countable A}.
Implicit Types a b : list A.

Lemma common_at_sym a b i j k : common_at a b i j k -> common_at b a j i k.
Proof. intros (? & ? & ?). by repeat split. Qed.

Lemma is_lcs_length_sym a b n : is_lcs_length a b n -> is_lcs_length b a n.
Proof.
  intros [(i & j & Hc) Hmax]. split.
  - exists j, i. by apply common_at_sym.
  - intros i' j' k Hk. eapply Hmax. by apply common_at_sym.
Qed.

Lemma lcs_length_le a b : lcs_length a b ≤ length a /\ lcs_length a b ≤ length b.
Proof.
  destruct (lcs_length_spec a b) as [(i & j & Hi & Hj & _) _]. lia.
Qed.

Lemma common_at_infix a b pre post :
  a = pre ++ b ++ post -> common_at a b (length pre) 0 (length b).
Proof.
  intros ->. repeat split.
  - rewrite !length_app. lia.
  - lia.
  - rewrite drop_app_length, take_app_length, drop_0. by rewrite firstn_all.
Qed.

Lemma common_at_whole a b i j :
  common_at a b i j (length b) -> exists pre post, a = pre ++ b ++ post.
Proof.
  intros (Hi & Hj & Heq). assert (j = 0) as -> by lia.
  rewrite drop_0, firstn_all in Heq.
  exists (take i a), (drop (length b) (drop i a)).
  transitivity (take i a ++ drop i a); [by rewrite take_drop|]. f_equal.
  rewrite <- (take_drop (length b) (drop i a)) at 1. by rewrite Heq.
Qed.

End blocks.

(** X10. For a token of fewer than 200 characters, the match returned
    by the matcher designates a block of the candidate and a block of the
    token that are equal, character for character, and lie within the two
    strings; its size is the same when the two strings are exchanged (both
    being shorter than 200); and the size is the length of the token
    exactly when the whole token occurs in the candidate. *)
Theorem longest_match_block (x npc : string) :
  length (chars npc) < 200 ->
  let m := longest_match x npc in
  Difflib.common_at (chars x) (chars npc) (Difflib.m_a m) (Difflib.m_b m) (Difflib.size m) /\
  (length (chars x) < 200 -> Difflib.size (longest_match npc x) = Difflib.size m) /\
  (Difflib.size m = length (chars npc) <->
   exists pre post, chars x = pre ++ chars npc ++ post).
Proof.
  intros Hlen m.
  assert (Hfl : Difflib.common_at (chars x) (chars npc)
                  (Difflib.m_a m) (Difflib.m_b m) (Difflib.size m) /\
                Difflib.is_lcs_length (chars x) (chars npc) (Difflib.size m))
    by exact (find_longest_match_is_lcs (chars x) (chars npc) Hlen).
  destruct Hfl as [Hblock Hlcs].
  split; [exact Hblock|]. split.
  - intros Hx.
    assert (Hlcs' : Difflib.is_lcs_length (chars npc) (chars x)
                      (Difflib.size (longest_match npc x)))
      by exact (proj2 (find_longest_match_is_lcs (chars npc) (chars x) Hx)).
    eapply is_lcs_length_unique; [exact Hlcs'|].
    by apply is_lcs_length_sym.
  - split.
    + intros Hsize. rewrite Hsize in Hblock. by eapply common_at_whole.
    + intros (pre & post & Hx). destruct Hlcs as [(i & j & _ & Hj & _) Hmax].
      pose proof (Hmax _ _ _ (common_at_infix _ _ pre post Hx)). lia.
Qed.

Lemma longest_match_block_witness :
  let m := longest_match "totalvotes" "total" in
  Difflib.common_at (chars "totalvotes") (chars "total")
    (Difflib.m_a m) (Difflib.m_b m) (Difflib.size m) /\
  Difflib.size m = 5.
Proof.
  intros m.
  destruct (longest_match_block "totalvotes" "total") as (Hblock & _ & Hwhole);
    [simpl; lia|].
  split; [exact Hblock|].
  apply Hwhole. exists [], (chars "votes"). reflexivity.
Defined.

(** ** More on the candidate check *)

Lemma islower_tolower (c : ascii) :
  PyStr.isalpha c = true -> PyStr.islower (PyStr.tolower c) = true.
Proof. destruct c as [[] [] [] [] [] [] [] []]; vm_compute; congruence. Qed.

Lemma islower_normal (c : ascii) :
  PyStr.islower c = true -> PyStr.isalpha c = true /\ PyStr.tolower c = c.
Proof. destruct c as [[] [] [] [] [] [] [] []]; vm_compute; by (split || congruence). Qed.

Lemma normalize_lowercase (s : string) :
  Forall (fun c => PyStr.islower c = true) (chars (normalize s)).
Proof.
  unfold normalize, PyStr.lower. induction s as [|c t IH]; simpl; [constructor|].
  destruct (PyStr.isalpha c) eqn:Hc; [|exact IH].
  simpl. constructor; [by apply islower_tolower|exact IH].
Qed.

Lemma normalize_fixed (s : string) :
  Forall (fun c => PyStr.islower c = true) (chars s) -> normalize s = s.
Proof.
  unfold normalize, PyStr.lower. induction s as [|c t IH]; simpl; [done|].
  intros [Hc Ht]%Forall_cons. destruct (islower_normal c Hc) as [-> Hl].
  simpl. by rewrite Hl, IH.
Qed.

(** X11. The normalized candidate is made of lower-case letters only;
    normalizing it again changes nothing; and a character that is not a
    letter leaves no trace, wherever it stands in the candidate. *)
Theorem normalize_letters (s : string) :
  Forall (fun c => PyStr.islower c = true) (chars (normalize s)) /\
  normalize (normalize s) = normalize s /\
  (forall (c : ascii) (t : string), PyStr.isalpha c = false ->
     normalize (s +:+ String c t) = normalize (s +:+ t)).
Proof.
  split; [apply normalize_lowercase|]. split.
  - apply normalize_fixed, normalize_lowercase.
  - intros c t Hc. unfold normalize. f_equal.
    induction s as [|d s IH]; simpl; [by rewrite Hc|].
    destruct (PyStr.isalpha d); by rewrite IH.
Qed.

Lemma tokens_long (npc : string) :
  npc ∈ normalizedPseudocandidates -> 5 ≤ length (chars npc).
Proof.
  intros [-> | [-> | [-> | ->]]]%elem_of_normalizedPseudocandidates; simpl; lia.
Qed.

(** X12. Two candidates with the same letters up to case, neither being
    one of the four reserved literals, fare alike: either both get the
    "Misspelled pseudocandidate" finding or neither does.  A candidate
    with at most four letters is never reported; a candidate that is not a
    reserved literal and whose letters contain a whole normalized token is
    always reported. *)
Theorem verifyCandidate_by_letters (self : Verifier) (row : Row) (candidate : string) :
  row !! "candidate" = Some candidate ->
  (forall row' candidate', row' !! "candidate" = Some candidate' ->
     candidate ∉ pseudocandidates -> candidate' ∉ pseudocandidates ->
     normalize candidate = normalize candidate' ->
     (output (verifyCandidate self row) = [] <-> output (verifyCandidate self row') = [])) /\
  (length (chars (normalize candidate)) ≤ 4 ->
     verifyCandidate self row = ([], Return tt)) /\
  (forall npc pre post, candidate ∉ pseudocandidates ->
     npc ∈ normalizedPseudocandidates ->
     chars (normalize candidate) = pre ++ chars npc ++ post ->
     verifyCandidate self row =
       ([PrintError (Text ("Misspelled pseudocandidate: '" +:+ candidate +:+ "'"));
         PrintRow row], Return tt)).
Proof.
  intros Hc. split; [|split].
  - intros row' candidate' Hc' Hnin Hnin' Hnorm.
    rewrite (verifyCandidate_run self row candidate Hc),
            (verifyCandidate_run self row' candidate' Hc').
    rewrite (bool_decide_eq_false_2 _ Hnin), (bool_decide_eq_false_2 _ Hnin'), Hnorm.
    by destruct (_ || _).
  - intros Hshort. rewrite (verifyCandidate_run self row candidate Hc).
    rewrite (bool_decide_eq_false_2 (normalize candidate ∈ normalizedPseudocandidates)).
    2: { intros Hin%tokens_long. lia. }
    destruct (existsb _ _) eqn:Hex; [|by rewrite andb_false_r].
    apply some_token_matches in Hex as (npc & _ & Hlt).
    pose proof (lcs_length_le (chars (normalize candidate)) (chars npc)). lia.
  - intros npc pre post Hnin Hin Hx.
    rewrite (verifyCandidate_run self row candidate Hc).
    rewrite (bool_decide_eq_false_2 _ Hnin).
    assert (Hex : existsb
      (fun npc => 4 <? Difflib.size (longest_match (normalize candidate) npc))
      (elements normalizedPseudocandidates) = true).
    { apply some_token_matches. exists npc. split; [exact Hin|].
      pose proof (tokens_long npc Hin).
      destruct (lcs_length_spec (chars (normalize candidate)) (chars npc))
        as [_ Hmax].
      pose proof (Hmax _ _ _ (common_at_infix _ _ pre post Hx)). lia. }
    rewrite Hex, orb_true_r. reflexivity.
Qed.

Lemma verifyCandidate_by_letters_witness :
  let row := mkRow "Hood River" "1" "Governor" "" "" "Total Votes" "9" in
  verifyCandidate hood_river (mkRow "Hood River" "1" "Governor" "" "DEM" "Al Oz" "9")
    = ([], Return tt) /\
  verifyCandidate hood_river row =
    ([PrintError (Text "Misspelled pseudocandidate: 'Total Votes'"); PrintRow row],
     Return tt).
Proof.
  intros row. split.
  - refine (proj1 (proj2 (verifyCandidate_by_letters hood_river
      (mkRow "Hood River" "1" "Governor" "" "DEM" "Al Oz" "9") "Al Oz" eq_refl)) _).
    vm_compute. lia.
  - refine (proj2 (proj2 (verifyCandidate_by_letters hood_river row "Total Votes" eq_refl))
      "total" [] (chars "votes") _ _ eq_refl).
    + apply (bool_decide_eq_false_1 _). vm_compute. reflexivity.
    + apply (bool_decide_eq_true_1 _). vm_compute. reflexivity.
Defined.

(** ** The party check, class by class *)

(** X13. With the party of the record at hand: in a primary precinct
    file the check does not read the candidate and reports exactly the
    empty party; in every other class it reports the empty party of a
    candidate that is not a reserved literal, nothing else, and a record
    without the candidate column makes it raise [KeyError]. *)
Theorem verifyParty_by_class (self : Verifier) (row : Row) (party : string) :
  row !! "party" = Some party ->
  (class_of self = PrimaryPrecinctVerifier ->
     verifyParty self row =
       (if decide (party = "")
        then ([PrintError (Text "Primary results must include a party for every row");
               PrintRow row], Return tt)
        else ([], Return tt))) /\
  (class_of self ≠ PrimaryPrecinctVerifier ->
     forall candidate, row !! "candidate" = Some candidate ->
     verifyParty self row =
       (if decide ((candidate ∉ pseudocandidates) /\ party = "")
        then ([PrintError (Text "Party missing"); PrintRow row], Return tt)
        else ([], Return tt))) /\
  (class_of self ≠ PrimaryPrecinctVerifier -> row !! "candidate" = None ->
     verifyParty self row = ([], Raise (KeyError "candidate"))).
Proof.
  intros Hp. split; [|split].
  - intros Hcls. unfold verifyParty. rewrite Hcls.
    rewrite (PrimaryPrecinctVerifier_verifyParty_run self row party Hp).
    destruct (decide (party = "")) as [Hd|Hd].
    + by rewrite bool_decide_eq_true_2.
    + by rewrite bool_decide_eq_false_2.
  - intros Hcls candidate Hc. rewrite verifyParty_inherited by exact Hcls.
    rewrite (Verifier_verifyParty_run self row candidate party Hc Hp).
    destruct (decide ((candidate ∉ pseudocandidates) /\ party = "")) as [[Hn He]|Hd].
    + by rewrite (bool_decide_eq_false_2 _ Hn), (bool_decide_eq_true_2 _ He).
    + destruct (decide (candidate ∈ pseudocandidates)) as [Hin|Hn].
      * by rewrite (bool_decide_eq_true_2 _ Hin).
      * rewrite (bool_decide_eq_false_2 _ Hn), bool_decide_eq_false_2; [done|].
        intros He. apply Hd. by split.
  - intros Hcls Hnone. rewrite verifyParty_inherited by exact Hcls.
    unfold Verifier_verifyParty. by rewrite (getitem_None _ _ Hnone).
Qed.

Lemma verifyParty_by_class_witness :
  verifyParty (mkVerifier PrimaryPrecinctVerifier primary_precinct_path [] true
                 (Some primary_precinct_path) (Some "or") (Some "Baker"))
              (delete "candidate" total_row) =
    ([PrintError (Text "Primary results must include a party for every row");
      PrintRow (delete "candidate" total_row)], Return tt) /\
  verifyParty hood_river (delete "candidate" total_row) =
    ([], Raise (KeyError "candidate")).
Proof.
  split.
  - refine (proj1 (verifyParty_by_class
      (mkVerifier PrimaryPrecinctVerifier primary_precinct_path [] true
         (Some primary_precinct_path) (Some "or") (Some "Baker"))
      (delete "candidate" total_row) "" eq_refl) eq_refl).
  - refine (proj2 (proj2 (verifyParty_by_class hood_river (delete "candidate" total_row)
      "" eq_refl)) _ eq_refl).
    discriminate.
Defined.

(** ** The last component of a path *)

Lemma rfind_from_app (c : ascii) (s1 s2 : string) : forall i last,
  PyStr.rfind_from c (s1 +:+ s2) i last =
  PyStr.rfind_from c s2 (i + PyStr.len s1)%Z (PyStr.rfind_from c s1 i last).
Proof.
  unfold PyStr.len. induction s1 as [|x t IH]; intros i last; simpl.
  - by rewrite Z.add_0_r.
  - rewrite IH. f_equal. lia.
Qed.

Lemma rfind_from_absent (c : ascii) (s : string) : forall i last,
  c ∉ chars s -> PyStr.rfind_from c s i last = last.
Proof.
  induction s as [|x t IH]; intros i last Hnin; simpl; [done|].
  simpl in Hnin. apply not_elem_of_cons in Hnin as [Hne Hnin].
  rewrite IH by done. destruct (Ascii.eqb_spec x c); [congruence|done].
Qed.

Lemma append_String (x : ascii) (t s : string) : String x t +:+ s = String x (t +:+ s).
Proof. reflexivity. Qed.

Lemma append_assoc (s1 s2 s3 : string) : (s1 +:+ s2) +:+ s3 = s1 +:+ s2 +:+ s3.
Proof.
  induction s1 as [|x t IH]; [reflexivity|]. by rewrite !append_String, IH.
Qed.

Lemma length_append (s1 s2 : string) :
  String.length (s1 +:+ s2) = String.length s1 + String.length s2.
Proof.
  induction s1 as [|x t IH]; [reflexivity|].
  rewrite append_String. simpl String.length. by rewrite IH.
Qed.

Lemma substring_skip (s1 s2 : string) (m : nat) :
  String.substring (String.length s1) m (s1 +:+ s2) = String.substring 0 m s2.
Proof.
  induction s1 as [|x t IH]; [reflexivity|]. rewrite append_String. exact IH.
Qed.

Lemma substring_whole (s : string) : String.substring 0 (String.length s) s = s.
Proof. induction s as [|x t IH]; simpl; [done|by rewrite IH]. Qed.

Lemma basename_of_join (dir f : string) :
  "/"%char ∉ chars f -> PyStr.basename (dir +:+ String "/" f) = f.
Proof.
  intros Hnin. unfold PyStr.basename, PyStr.slice, PyStr.rfind.
  rewrite rfind_from_app. simpl PyStr.rfind_from.
  rewrite rfind_from_absent by done.
  unfold PyStr.len. rewrite length_append. simpl String.length.
  replace (Z.to_nat (0 + Z.of_nat (String.length dir) + 1))
    with (String.length (dir +:+ "/"))
    by (rewrite length_append; simpl String.length; lia).
  replace (Z.to_nat _) with (String.length f) by lia.
  change (String "/" f) with ("/" +:+ f). rewrite <- append_assoc.
  by rewrite substring_skip, substring_whole.
Qed.

Lemma basename_of_name (f : string) : "/"%char ∉ chars f -> PyStr.basename f = f.
Proof.
  intros Hnin. unfold PyStr.basename, PyStr.slice, PyStr.rfind.
  rewrite rfind_from_absent by done. change (Z.to_nat (-1 + 1)) with 0.
  replace (Z.to_nat (PyStr.len f - (-1 + 1))) with (String.length f)
    by (unfold PyStr.len; lia).
  apply substring_whole.
Qed.

(** X14. Only the last component of a path counts: for a file name
    without a slash, the base name of the path is the file name whatever
    the directory, so the class selected and the state and county derived
    are those of the bare file name, even when the directory carries a
    tag such as "general". *)
Theorem selection_ignores_directory `{PyLib} (dir f : string) :
  "/"%char ∉ chars f ->
  PyStr.basename (dir +:+ "/" +:+ f) = f /\
  PyStr.basename f = f /\
  __new__ (dir +:+ "/" +:+ f) = __new__ f /\
  deriveStateCountyFromFilename (PyStr.basename (dir +:+ "/" +:+ f)) =
    deriveStateCountyFromFilename f.
Proof.
  intros Hnin.
  pose proof (basename_of_join dir f Hnin) as Hj.
  pose proof (basename_of_name f Hnin) as Hf.
  change ("/" +:+ f) with (String "/" f).
  split; [exact Hj|]. split; [exact Hf|]. split; [|by rewrite Hj].
  unfold __new__. by rewrite Hj, Hf.
Qed.

Lemma selection_ignores_directory_witness :
  __new__ ("general/2016" +:+ "/" +:+ primary_precinct_path) = Some PrimaryPrecinctVerifier.
Proof.
  assert (Hn : "/"%char ∉ chars primary_precinct_path)
    by (apply (bool_decide_eq_false_1 _); vm_compute; reflexivity).
  rewrite (proj1 (proj2 (proj2 (selection_ignores_directory "general/2016"
             primary_precinct_path Hn)))).
  reflexivity.
Defined.

(** ** The sanity check of the path *)

Lemma substring_suffix (s : string) : forall n,
  n ≤ String.length s ->
  s = String.substring 0 n s +:+ String.substring n (String.length s - n) s.
Proof.
  induction s as [|c t IH]; intros [|n] Hn; simpl in *; try lia.
  - reflexivity.
  - by rewrite substring_whole.
  - rewrite append_String. f_equal. apply IH. lia.
Qed.

Lemma rfind_from_bounds (c : ascii) (s : string) : forall i last,
  (last < i)%Z ->
  (last ≤ PyStr.rfind_from c s i last < i + PyStr.len s)%Z.
Proof.
  unfold PyStr.len. induction s as [|x t IH]; intros i last Hlt; [simpl; lia|].
  simpl PyStr.rfind_from. simpl String.length. rewrite Nat2Z.inj_succ.
  destruct (Ascii.eqb x c).
  - specialize (IH (i + 1)%Z i). lia.
  - specialize (IH (i + 1)%Z last). lia.
Qed.

(** The extension that [splitext] returns is an end of the path. *)
Lemma splitext_suffix (p : string) :
  exists stem, p = stem +:+ (PyStr.splitext p).2.
Proof.
  unfold PyStr.splitext.
  pose proof (rfind_from_bounds "." p 0 (-1) ltac:(lia)) as Hdot.
  fold (PyStr.rfind "." p) in Hdot.
  destruct (PyStr.rfind "/" p <? PyStr.rfind "." p)%Z eqn:Hlt.
  2: { exists p. clear. simpl. induction p as [|c t IH]; [done|].
       by rewrite append_String, <- IH. }
  destruct (String.eqb _ _).
  { exists p. clear. simpl. induction p as [|c t IH]; [done|].
    by rewrite append_String, <- IH. }
  simpl. exists (String.substring 0 (Z.to_nat (PyStr.rfind "." p)) p).
  unfold PyStr.slice, PyStr.len in *.
  pose proof (rfind_from_bounds "/" p 0 (-1) ltac:(lia)) as Hsep.
  fold (PyStr.rfind "/" p) in Hsep. apply Z.ltb_lt in Hlt.
  replace (Z.to_nat (Z.of_nat (String.length p) - PyStr.rfind "." p))
    with (String.length p - Z.to_nat (PyStr.rfind "." p)) by lia.
  apply substring_suffix. unfold PyStr.len in *. lia.
Qed.

(** X17. [pathSanityCheck] ends normally only for a path that leads to a
    regular file and ends in [.csv], and then prints the path and nothing
    else; when it raises it has printed nothing, and the exception is
    [FileNotFoundError] when no regular file is there and [ValueError]
    otherwise. *)
Theorem pathSanityCheck_accepts (fs : FileSystem) (path : string) :
  (outcome (pathSanityCheck fs path) = Return tt ->
     (exists content, fs path = Some (RegularFile content)) /\
     (exists stem, path = stem +:+ ".csv") /\
     output (pathSanityCheck fs path) = [PrintPath path]) /\
  (forall e, outcome (pathSanityCheck fs path) = Raise e ->
     output (pathSanityCheck fs path) = [] /\
     ((forall content, fs path ≠ Some (RegularFile content)) /\
        e = FileNotFoundError ("Can't find file at path " +:+ path) \/
      (exists content, fs path = Some (RegularFile content)) /\
        e = ValueError ("Filename does not end in .csv: " +:+ path))).
Proof.
  unfold pathSanityCheck. destruct (fs path) as [[|content]|].
  - split; [done|]. intros e [= <-]. split; [done|]. left. by split.
  - destruct (String.eqb_spec (PyStr.splitext path).2 ".csv") as [Hext|Hext]; simpl.
    + split; [|done]. intros _. split; [by exists content|]. split; [|done].
      destruct (splitext_suffix path) as [stem Hstem]. exists stem. by rewrite <- Hext.
    + split; [done|]. intros e [= <-]. split; [done|]. right.
      split; [by exists content|done].
  - split; [done|]. intros e [= <-]. split; [done|]. left. by split.
Qed.

Lemma pathSanityCheck_accepts_witness :
  exists stem, hood_river_path = stem +:+ ".csv".
Proof.
  refine (proj1 (proj2 (proj1 (pathSanityCheck_accepts sample_files hood_river_path) _))).
  reflexivity.
Defined.

(** ** The order of the tokens *)

(** X18. Python does not fix the order in which the loop of the
    candidate check meets the four tokens.  Whatever the order, the loop
    prints the same lines and ends the same way as with the order the
    model runs it in. *)
Theorem candidate_loop_order_independent
    (candidate normalizedCandidate : string) (row : Row) (npcs : list string) :
  npcs ≡ₚ elements normalizedPseudocandidates ->
  compareTokens candidate normalizedCandidate row npcs =
  compareTokens candidate normalizedCandidate row (elements normalizedPseudocandidates).
Proof. apply compareTokens_order. Qed.

Lemma candidate_loop_order_independent_witness :
  let row := mkRow "Hood River" "1" "Governor" "" "" "Overvote" "9" in
  compareTokens "Overvote" "overvote" row ["total"; "overvotes"; "undervotes"; "writein"] =
    ([PrintError (Text "Misspelled pseudocandidate: 'Overvote'"); PrintRow row], Return tt).
Proof.
  intros row.
  rewrite (candidate_loop_order_independent "Overvote" "overvote" row
             ["total"; "overvotes"; "undervotes"; "writein"]).
  - vm_compute. reflexivity.
  - apply NoDup_Permutation.
    + apply (bool_decide_eq_true_1 _). vm_compute. reflexivity.
    + apply NoDup_elements.
    + intros npc. rewrite elem_of_elements, elem_of_normalizedPseudocandidates.
      rewrite !elem_of_cons, elem_of_nil. tauto.
Defined.

(** ** How much a record can print *)

Lemma findings_app (out out' : list line) :
  findings (out ++ out') = findings out ++ findings out'.
Proof. apply omap_app. Qed.

Lemma findings_then {A} (m : M A) (k : M unit) :
  length (findings (output (m;; k))) ≤
  length (findings (output m)) + length (findings (output k)).
Proof.
  destruct m as [out [a|e]], k as [out' r]; unfold output; simpl; [|lia].
  rewrite findings_app, length_app. lia.
Qed.

Lemma printError_findings (text : message) (row : option Row) :
  findings (output (printError text row)) = [text] /\
  outcome (printError text row) = Return tt.
Proof.
  unfold printError. destruct row as [r|]; [|done].
  by destruct (decide (r = ∅)).
Qed.

Lemma verifyCounty_bound `{PyLib} (self : Verifier) (row : Row) :
  length (findings (output (verifyCounty self row))) ≤ 2.
Proof.
  unfold verifyCounty, getitem, getattr.
  destruct (row !! "county") as [county|]; [|simpl; lia]. rewrite bind_ret_l.
  destruct (filenameCounty self) as [fc|]; [|simpl; lia]. rewrite bind_ret_l.
  etrans; [apply findings_then|]. rewrite bind_ret_l.
  destruct (negb _), (negb _);
    rewrite ?(proj1 (printError_findings _ _)); simpl; lia.
Qed.

Lemma verifyOffice_bound (self : Verifier) (row : Row) :
  length (findings (output (verifyOffice self row))) = 0.
Proof.
  unfold verifyOffice, getitem.
  destruct (row !! "office") as [office|]; [|done]. rewrite bind_ret_l.
  by destruct (negb _).
Qed.

Lemma verifyDistrict_bound `{PyLib} (self : Verifier) (row : Row) :
  length (findings (output (verifyDistrict self row))) ≤ 1.
Proof.
  unfold verifyDistrict, getitem, getattr.
  destruct (row !! "office") as [office|]; [|simpl; lia]. rewrite !bind_ret_l.
  destruct (bool_decide _); [|simpl; lia].
  destruct (row !! "district") as [district|]; [|simpl; lia]. rewrite bind_ret_l.
  destruct (String.eqb district "").
  { by rewrite (proj1 (printError_findings _ _)). }
  destruct (String.eqb (PyStr.lower district) "x").
  { destruct (filenameState self) as [state|]; [|simpl; lia]. rewrite bind_ret_l.
    destruct (String.eqb state "ms"); [simpl; lia|].
    by rewrite (proj1 (printError_findings _ _)). }
  destruct (negb _); [|simpl; lia].
  by rewrite (proj1 (printError_findings _ _)).
Qed.

Lemma verifyCandidate_bound (self : Verifier) (row : Row) :
  length (findings (output (verifyCandidate self row))) ≤ 1.
Proof.
  destruct (row !! "candidate") as [candidate|] eqn:Hc.
  - rewrite (verifyCandidate_run self row candidate Hc).
    destruct (_ && _); simpl; lia.
  - unfold verifyCandidate. rewrite (getitem_None _ _ Hc). simpl. lia.
Qed.

Lemma verifyParty_bound (self : Verifier) (row : Row) :
  length (findings (output (verifyParty self row))) ≤ 1.
Proof.
  unfold verifyParty, Verifier_verifyParty, PrimaryPrecinctVerifier_verifyParty, getitem.
  destruct (class_of self);
    repeat match goal with
    | |- context [row !! ?k] =>
        destruct (row !! k); [rewrite bind_ret_l|simpl; lia]
    | |- context [if ?b then _ else _] => destruct b
    end;
    rewrite ?(proj1 (printError_findings _ _)); simpl; lia.
Qed.

(** X19. Whatever the record and the instance, the scan of one record
    prints at most five findings: two for the county, one for the
    district, one for the candidate and one for the party, and none for
    the office. *)
Theorem verifyRow_at_most_five `{PyLib} (self : Verifier) (row : Row) :
  length (findings (output (verifyRow self row))) ≤ 5 /\
  length (findings (output (verifyCounty self row))) ≤ 2 /\
  length (findings (output (verifyOffice self row))) = 0 /\
  length (findings (output (verifyDistrict self row))) ≤ 1 /\
  length (findings (output (verifyCandidate self row))) ≤ 1 /\
  length (findings (output (verifyParty self row))) ≤ 1.
Proof.
  pose proof (verifyCounty_bound self row).
  pose proof (verifyOffice_bound self row).
  pose proof (verifyDistrict_bound self row).
  pose proof (verifyCandidate_bound self row).
  pose proof (verifyParty_bound self row).
  repeat split; try done.
  unfold verifyRow.
  etrans; [apply findings_then|].
  etrans; [apply Nat.add_le_mono_l, findings_then|].
  etrans; [apply Nat.add_le_mono_l, Nat.add_le_mono_l, findings_then|].
  etrans; [apply Nat.add_le_mono_l, Nat.add_le_mono_l, Nat.add_le_mono_l, findings_then|].
  lia.
Qed.
